(** * POSIX message-queue wrappers ([trace/posixmq.c]) and the [mqsend] tool

    A shallow embedding of the two C sources of the repository:

    - [src/trace/posixmq.c]: the six library wrappers
      [posixmq_open_create], [posixmq_open_existing], [posixmq_close],
      [posixmq_unlink], [posixmq_send], [posixmq_recv];
    - [src/spack_repo/trace_repo/packages/mqsend/mqsend.c]: [main].

    The C code is a sequence of calls into the operating system ([mq_open],
    [mq_send], ..., [errno], [printf]).  Each function is embedded as a
    program tree whose nodes are the calls it makes, in source order, and
    whose branches are the C conditionals on the values the calls return.
    A program is run against a handler that answers the calls.  Properties
    that hold whatever the operating system answers are proved for every
    handler; properties that depend on what a message queue does are proved
    for the handler [os_handle], a model of the POSIX queue semantics of
    mq_overview(7).

    C data (LP64 Linux): [int] and [mqd_t] are 32-bit signed, [long] and
    [ssize_t] 64-bit signed, [size_t] 64-bit unsigned, [unsigned int] 32-bit
    unsigned.  All are carried as [Z], with the conversions the C code
    performs written out ([to_size_t], [to_long]).  A [char *] string is a
    [string] (no embedded NUL), a byte buffer a [list byte].  An output
    pointer is modelled by passing the pointee's value in and returning the
    pointee's value after the call next to the [RES_T] result. *)

From Stdlib Require Import ZArith List Lia Bool.
From Stdlib Require Import Strings.String Strings.Ascii Strings.Byte.
From Stdlib Require Import Numbers.DecimalString.
From stdpp Require Import base option list gmap strings.

Local Open Scope string_scope.
Local Open Scope Z_scope.

(** ** C integer conversions *)

Module CInt.

Definition SIZE_WIDTH : Z := 64.

(** conversion to [size_t]: reduction modulo 2^64 *)
Definition to_size_t (z : Z) : Z := z mod 2 ^ SIZE_WIDTH.

(** conversion to [long] / [ssize_t]: two's complement wrap *)
Definition to_long (z : Z) : Z :=
  (z + 2 ^ (SIZE_WIDTH - 1)) mod 2 ^ SIZE_WIDTH - 2 ^ (SIZE_WIDTH - 1).

Definition SIZE_MAX : Z := 2 ^ SIZE_WIDTH - 1.

Definition is_size_t (z : Z) : Prop := 0 <= z <= SIZE_MAX.

End CInt.
Export CInt.

(** ** libc helpers used by the sources *)

(** [%d] of printf *)
Definition fmt_d (z : Z) : string := NilZero.string_of_int (Z.to_int z).

Definition newline : string := String (ascii_of_nat 10) EmptyString.

(** [strlen] on a NUL-free C string *)
Definition strlen (s : string) : Z := Z.of_nat (String.length s).

(** the bytes a [char *] points to *)
Definition bytes_of (s : string) : list byte := list_byte_of_string s.

(** [atoi]: optional white space, optional sign, then decimal digits; the
    value is converted to [int]. *)
Definition is_space (c : ascii) : bool :=
  let n := nat_of_ascii c in
  orb (Nat.eqb n 32) (andb (Nat.leb 9 n) (Nat.leb n 13)).

Definition digit_of (c : ascii) : option Z :=
  let n := nat_of_ascii c in
  if andb (Nat.leb 48 n) (Nat.leb n 57) then Some (Z.of_nat n - 48) else None.

Fixpoint skip_spaces (s : string) : string :=
  match s with
  | String c s' => if is_space c then skip_spaces s' else s
  | EmptyString => s
  end.

Fixpoint atoi_digits (acc : Z) (s : string) : Z :=
  match s with
  | String c s' =>
      match digit_of c with
      | Some d => atoi_digits (10 * acc + d) s'
      | None => acc
      end
  | EmptyString => acc
  end.

Definition to_int (z : Z) : Z := (z + 2 ^ 31) mod 2 ^ 32 - 2 ^ 31.

Definition atoi (s : string) : Z :=
  match skip_spaces s with
  | String "-" s' => to_int (- atoi_digits 0 s')
  | String "+" s' => to_int (atoi_digits 0 s')
  | s' => to_int (atoi_digits 0 s')
  end.

(** ** The operating-system interface *)

(** [struct mq_attr] *)
Record mq_attr : Type := MqAttr {
  mq_flags : Z;
  mq_maxmsg : Z;
  mq_msgsize : Z;
  mq_curmsgs : Z
}.

(** open flags of <fcntl.h> (Linux values) *)
Definition O_RDONLY : Z := 0.
Definition O_WRONLY : Z := 1.
Definition O_RDWR : Z := 2.
Definition O_ACCMODE : Z := 3.
Definition O_CREAT : Z := 64.
Definition O_EXCL : Z := 128.
Definition O_NONBLOCK : Z := 2048.

(** the permission bits [0644] of the creating [mq_open] *)
Definition MODE_0644 : Z := 6 * 64 + 4 * 8 + 4.

(** The calls the two sources make.  [mq_open] is variadic: the creating form
    passes a mode and an attribute block.  [mq_receive] gets the buffer and
    the pointee of the priority pointer as they are before the call. *)
Inductive event : Type :=
| mq_open (name : string) (oflag : Z) (creat : option (Z * mq_attr))
| mq_getattr (mqdes : Z)
| mq_close (mqdes : Z)
| mq_unlink (name : string)
| mq_send (mqdes : Z) (msg_ptr : list byte) (msg_len : Z) (msg_prio : Z)
| mq_receive (mqdes : Z) (msg_ptr : list byte) (msg_len : Z) (msg_prio : Z)
| get_errno
| printf (text : string)
| fprintf_stderr (text : string)
| perror (s : string).

(** What each call hands back: its return value and, for calls with output
    pointers, the pointees after the call. *)
Definition resp (e : event) : Type :=
  match e with
  | mq_open _ _ _ => Z
  | mq_getattr _ => (Z * mq_attr)%type
  | mq_close _ => Z
  | mq_unlink _ => Z
  | mq_send _ _ _ _ => Z
  | mq_receive _ _ _ _ => (Z * list byte * Z)%type
  | get_errno => Z
  | printf _ => unit
  | fprintf_stderr _ => unit
  | perror _ => unit
  end.

(** ** Programs *)

Inductive Prog (A : Type) : Type :=
| Ret (a : A)
| Vis (e : event) (k : resp e -> Prog A).
Arguments Ret {A} a.
Arguments Vis {A} e k.

Fixpoint bind {A B : Type} (p : Prog A) (f : A -> Prog B) : Prog B :=
  match p with
  | Ret a => f a
  | Vis e k => Vis e (fun r => bind (k r) f)
  end.

Definition call (e : event) : Prog (resp e) := Vis e Ret.

(** stdpp's monad notations: [x ← p; q] and [p;; q] *)
#[global] Instance Prog_ret : MRet Prog := fun A a => Ret a.
#[global] Instance Prog_bind : MBind Prog := fun A B f p => bind p f.

(** A handler answers a call in a state, or never answers (the call blocks
    for ever). *)
Definition handler (S : Type) : Type :=
  forall e : event, S -> option (resp e * S).

(** Outcome of a run: the calls issued, in order, and the value returned
    with the final state, when the program returns. *)
Record outcome (A S : Type) : Type := Outcome {
  issued : list event;
  returned : option (A * S)
}.
Arguments Outcome {A S} issued returned.
Arguments issued {A S} o.
Arguments returned {A S} o.

Fixpoint exec {A S : Type} (h : handler S) (p : Prog A) (s : S) : outcome A S :=
  match p with
  | Ret a => Outcome [] (Some (a, s))
  | Vis e k =>
      match h e s with
      | Some (r, s') =>
          let o := exec h (k r) s' in
          Outcome (e :: issued o) (returned o)
      | None => Outcome [e] None
      end
  end.

(** ** [src/trace/posixmq.c] *)

Definition RES_T : Type := Z.

Definition errno_line (e : Z) : string := "Errno: " ++ fmt_d e ++ newline.

Definition posixmq_open_create (name : string) (max_msg_size max_queue_size : Z)
    (mq_id_out : Z) : Prog (RES_T * Z) :=
  let attrs := {| mq_flags := 0;
                  mq_maxmsg := to_long max_queue_size;
                  mq_msgsize := to_long max_msg_size;
                  mq_curmsgs := 0 |} in
  mqd ← call (mq_open name (Z.lor O_CREAT O_RDWR) (Some (MODE_0644, attrs)));
  if mqd <? 0 then
    e ← call get_errno;
    call (printf (errno_line e));;
    Ret (-1, mq_id_out)
  else
    Ret (0, mqd).

Definition posixmq_open_existing (name : string) (mq_id_out : Z)
    (max_msg_size_out max_queue_size_out : Z) : Prog (RES_T * (Z * Z * Z)) :=
  mqd ← call (mq_open name O_RDWR None);
  if mqd <? 0 then
    e ← call get_errno;
    call (printf (errno_line e));;
    Ret (-1, (mq_id_out, max_msg_size_out, max_queue_size_out))
  else
    ga ← call (mq_getattr mqd);
    let attrs := snd ga in
    Ret (0, (mqd, to_size_t (mq_msgsize attrs), to_size_t (mq_maxmsg attrs))).

Definition posixmq_close (mq : Z) : Prog RES_T :=
  r ← call (mq_close mq);
  if r <? 0 then
    e ← call get_errno;
    call (printf (errno_line e));;
    Ret (-1)
  else
    Ret 0.

Definition posixmq_unlink (name : string) : Prog RES_T :=
  r ← call (mq_unlink name);
  if r <? 0 then
    e ← call get_errno;
    call (printf (errno_line e));;
    Ret (-1)
  else
    Ret 0.

Definition posixmq_send (mq : Z) (msg : list byte) (size : Z) (priority : Z)
    : Prog RES_T :=
  r ← call (mq_send mq msg size priority);
  if r <? 0 then
    e ← call get_errno;
    call (printf (errno_line e));;
    Ret (-1)
  else
    Ret 0.

(** [size_t res = mq_receive(...)]: the [ssize_t] result is converted to
    [size_t] before the test [res < 0]. *)
Definition posixmq_recv (mq : Z) (buf_out : list byte) (size_inout : Z)
    (priority_out : Z) : Prog (RES_T * (list byte * Z * Z)) :=
  rcv ← call (mq_receive mq buf_out size_inout priority_out);
  let '(r, buf', prio') := rcv in
  let res := to_size_t r in
  if res <? 0 then
    e ← call get_errno;
    call (printf (errno_line e));;
    Ret (-1, (buf', size_inout, prio'))
  else
    Ret (0, (buf', res, prio')).

(** ** [mqsend.c] *)

Definition usage : string := "Usage: mqsend QUEUE_NAME MSG PRIO".

Definition open_failed_line (queue_name : string) (e : Z) : string :=
  "Opening queue: " ++ queue_name ++ " failed with error: " ++ fmt_d e ++ newline.

Definition send_failed_line (e : Z) : string :=
  "Message send failed with error: " ++ fmt_d e ++ newline.

(** [argv] holds [argc] strings; [argv[0]] is the program name. *)
Definition main (argv : list string) : Prog Z :=
  let argc := Z.of_nat (length argv) in
  if negb (argc =? 4) then
    call (perror usage);;
    Ret 1
  else
    let queue_name := nth 1 argv "" in
    let msg := nth 2 argv "" in
    let priority := atoi (nth 3 argv "") in
    mqd ← call (mq_open queue_name O_RDWR None);
    if mqd <? 0 then
      e ← call get_errno;
      call (fprintf_stderr (open_failed_line queue_name e));;
      Ret 1
    else
      let msg_len := strlen msg in
      send_res ← call (mq_send mqd (bytes_of msg) msg_len 1);
      if negb (send_res =? 0) then
        e ← call get_errno;
        call (fprintf_stderr (send_failed_line e));;
        Ret 1
      else
        Ret 0.

(** ** A model of the operating system

    What the calls do, after mq_overview(7), mq_open(3), mq_send(3),
    mq_receive(3), mq_getattr(3), mq_close(3), mq_unlink(3) on Linux.  One
    process, one thread; no permissions, no descriptor or memory limits, no
    signals.  A call that would wait for another process never answers. *)

Module OS.

Definition ENOENT : Z := 2.
Definition EBADF : Z := 9.
Definition EAGAIN : Z := 11.
Definition EACCES : Z := 13.
Definition EEXIST : Z := 17.
Definition EINVAL : Z := 22.
Definition ENAMETOOLONG : Z := 36.
Definition EMSGSIZE : Z := 90.

Definition MQ_PRIO_MAX : Z := 32768.
Definition NAME_MAX : Z := 255.

Record message : Type := Message {
  m_prio : Z;
  m_data : list byte
}.

(** a queue object: its two fixed attributes and the messages waiting, in
    the order they will be received *)
Record mqueue : Type := MQueue {
  q_maxmsg : Z;
  q_msgsize : Z;
  q_msgs : list message
}.

(** an open descriptor: the queue object and the flags given to [mq_open] *)
Record mqdesc : Type := MqDesc {
  d_queue : nat;
  d_oflag : Z
}.

Record world : Type := World {
  w_names : gmap string nat;        (* the queue name space *)
  w_queues : list mqueue;           (* queue objects, by index *)
  w_fds : list (option mqdesc);     (* descriptor table, by descriptor *)
  w_errno : Z;
  w_stdout : list string;
  w_stderr : list string;
  w_msg_max : Z;                    (* /proc/sys/fs/mqueue/msg_max *)
  w_msgsize_max : Z                 (* /proc/sys/fs/mqueue/msgsize_max *)
}.

Definition set_errno (e : Z) (w : world) : world :=
  World (w_names w) (w_queues w) (w_fds w) e (w_stdout w) (w_stderr w)
        (w_msg_max w) (w_msgsize_max w).
Definition set_names (n : gmap string nat) (w : world) : world :=
  World n (w_queues w) (w_fds w) (w_errno w) (w_stdout w) (w_stderr w)
        (w_msg_max w) (w_msgsize_max w).
Definition set_queues (q : list mqueue) (w : world) : world :=
  World (w_names w) q (w_fds w) (w_errno w) (w_stdout w) (w_stderr w)
        (w_msg_max w) (w_msgsize_max w).
Definition set_fds (f : list (option mqdesc)) (w : world) : world :=
  World (w_names w) (w_queues w) f (w_errno w) (w_stdout w) (w_stderr w)
        (w_msg_max w) (w_msgsize_max w).
Definition put_stdout (s : string) (w : world) : world :=
  World (w_names w) (w_queues w) (w_fds w) (w_errno w) (w_stdout w ++ [s])
        (w_stderr w) (w_msg_max w) (w_msgsize_max w).
Definition put_stderr (s : string) (w : world) : world :=
  World (w_names w) (w_queues w) (w_fds w) (w_errno w) (w_stdout w)
        (w_stderr w ++ [s]) (w_msg_max w) (w_msgsize_max w).

(** *** Names *)

Fixpoint has_slash (s : string) : bool :=
  match s with
  | String c s' => if Ascii.eqb c "/" then true else has_slash s'
  | EmptyString => false
  end.

(** the error a queue name is refused with, if any: a name is a slash
    followed by one or more characters, none of them a slash *)
Definition name_error (name : string) : option Z :=
  match name with
  | String "/" rest =>
      if String.eqb rest "" then Some ENOENT
      else if has_slash rest then Some EACCES
      else if NAME_MAX <? strlen rest then Some ENAMETOOLONG
      else None
  | _ => Some EINVAL
  end.

(** *** Descriptors *)

Definition has_flag (flag oflag : Z) : bool := negb (Z.land oflag flag =? 0).

Definition can_read (oflag : Z) : bool :=
  let m := Z.land oflag O_ACCMODE in (m =? O_RDONLY) || (m =? O_RDWR).

Definition can_write (oflag : Z) : bool :=
  let m := Z.land oflag O_ACCMODE in (m =? O_WRONLY) || (m =? O_RDWR).

Definition fd_lookup (w : world) (mqdes : Z) : option mqdesc :=
  if mqdes <? 0 then None else mjoin (w_fds w !! Z.to_nat mqdes).

(** the lowest free descriptor gets the new entry *)
Fixpoint alloc_fd (fds : list (option mqdesc)) (d : mqdesc)
    : nat * list (option mqdesc) :=
  match fds with
  | [] => (0%nat, [Some d])
  | None :: fds' => (0%nat, Some d :: fds')
  | Some d' :: fds' =>
      let '(i, fds'') := alloc_fd fds' d in (S i, Some d' :: fds'')
  end.

Definition open_fd (q : nat) (oflag : Z) (w : world) : Z * world :=
  let '(fd, fds) := alloc_fd (w_fds w) (MqDesc q oflag) in
  (Z.of_nat fd, set_fds fds w).

(** the queue a descriptor refers to *)
Definition queue_of (w : world) (d : mqdesc) : option mqueue :=
  w_queues w !! d_queue d.

(** *** Messages *)

(** a message goes behind every waiting message of the same or a higher
    priority *)
Fixpoint enqueue (m : message) (l : list message) : list message :=
  match l with
  | [] => [m]
  | m' :: l' =>
      if m_prio m' <? m_prio m then m :: l else m' :: enqueue m l'
  end.

Definition write_buf (data buf : list byte) : list byte :=
  data ++ drop (length data) buf.

Definition set_msgs (l : list message) (q : mqueue) : mqueue :=
  MQueue (q_maxmsg q) (q_msgsize q) l.

(** *** The calls *)

Definition fails {R : Type} (r : R) (e : Z) (w : world) : option (R * world) :=
  Some (r, set_errno e w).

Definition attr_ok (w : world) (a : mq_attr) : bool :=
  (0 <? mq_maxmsg a) && (mq_maxmsg a <=? w_msg_max w) &&
  (0 <? mq_msgsize a) && (mq_msgsize a <=? w_msgsize_max w).

Definition os_mq_open (name : string) (oflag : Z) (creat : option (Z * mq_attr))
    (w : world) : option (Z * world) :=
  match name_error name with
  | Some e => fails (-1) e w
  | None =>
      match w_names w !! name with
      | Some q =>
          if has_flag O_CREAT oflag && has_flag O_EXCL oflag
          then fails (-1) EEXIST w
          else Some (open_fd q oflag w)
      | None =>
          if has_flag O_CREAT oflag then
            match creat with
            | Some (_, attr) =>
                if attr_ok w attr then
                  let q := length (w_queues w) in
                  let new := MQueue (mq_maxmsg attr) (mq_msgsize attr) [] in
                  Some (open_fd q oflag
                          (set_names (<[name := q]> (w_names w))
                             (set_queues (w_queues w ++ [new]) w)))
                else fails (-1) EINVAL w
            | None => fails (-1) EINVAL w (* not done by the sources *)
            end
          else fails (-1) ENOENT w
      end
  end.

Definition no_attr : mq_attr := MqAttr 0 0 0 0.

Definition os_mq_getattr (mqdes : Z) (w : world) : option (Z * mq_attr * world) :=
  match fd_lookup w mqdes with
  | Some d =>
      match queue_of w d with
      | Some q =>
          Some (0, MqAttr (Z.land (d_oflag d) O_NONBLOCK) (q_maxmsg q)
                     (q_msgsize q) (Z.of_nat (length (q_msgs q))), w)
      | None => fails (-1, no_attr) EBADF w
      end
  | None => fails (-1, no_attr) EBADF w
  end.

Definition os_mq_close (mqdes : Z) (w : world) : option (Z * world) :=
  match fd_lookup w mqdes with
  | Some _ => Some (0, set_fds (<[Z.to_nat mqdes := None]> (w_fds w)) w)
  | None => fails (-1) EBADF w
  end.

Definition os_mq_unlink (name : string) (w : world) : option (Z * world) :=
  match name_error name with
  | Some e => fails (-1) e w
  | None =>
      match w_names w !! name with
      | Some _ => Some (0, set_names (delete name (w_names w)) w)
      | None => fails (-1) ENOENT w
      end
  end.

Definition os_mq_send (mqdes : Z) (msg_ptr : list byte) (msg_len msg_prio : Z)
    (w : world) : option (Z * world) :=
  if MQ_PRIO_MAX <=? msg_prio then fails (-1) EINVAL w else
  match fd_lookup w mqdes with
  | Some d =>
      if negb (can_write (d_oflag d)) then fails (-1) EBADF w else
      match queue_of w d with
      | Some q =>
          if q_msgsize q <? msg_len then fails (-1) EMSGSIZE w
          else if q_maxmsg q <=? Z.of_nat (length (q_msgs q)) then
            if has_flag O_NONBLOCK (d_oflag d) then fails (-1) EAGAIN w
            else None
          else
            let m := Message msg_prio (take (Z.to_nat msg_len) msg_ptr) in
            Some (0, set_queues
                       (<[d_queue d := set_msgs (enqueue m (q_msgs q)) q]>
                          (w_queues w)) w)
      | None => fails (-1) EBADF w
      end
  | None => fails (-1) EBADF w
  end.

Definition os_mq_receive (mqdes : Z) (msg_ptr : list byte) (msg_len msg_prio : Z)
    (w : world) : option (Z * list byte * Z * world) :=
  match fd_lookup w mqdes with
  | Some d =>
      if negb (can_read (d_oflag d)) then fails (-1, msg_ptr, msg_prio) EBADF w else
      match queue_of w d with
      | Some q =>
          if msg_len <? q_msgsize q then fails (-1, msg_ptr, msg_prio) EMSGSIZE w
          else
            match q_msgs q with
            | m :: rest =>
                Some (Z.of_nat (length (m_data m)),
                      write_buf (m_data m) msg_ptr, m_prio m,
                      set_queues (<[d_queue d := set_msgs rest q]> (w_queues w)) w)
            | [] =>
                if has_flag O_NONBLOCK (d_oflag d)
                then fails (-1, msg_ptr, msg_prio) EAGAIN w
                else None
            end
      | None => fails (-1, msg_ptr, msg_prio) EBADF w
      end
  | None => fails (-1, msg_ptr, msg_prio) EBADF w
  end.

Definition strerror (e : Z) : string :=
  if e =? 0 then "Success"
  else if e =? ENOENT then "No such file or directory"
  else if e =? EBADF then "Bad file descriptor"
  else if e =? EAGAIN then "Resource temporarily unavailable"
  else if e =? EACCES then "Permission denied"
  else if e =? EEXIST then "File exists"
  else if e =? EINVAL then "Invalid argument"
  else if e =? ENAMETOOLONG then "File name too long"
  else if e =? EMSGSIZE then "Message too long"
  else "Unknown error " ++ fmt_d e.

Definition os_handle : handler world :=
  fun e =>
    match e return world -> option (resp e * world) with
    | mq_open name oflag creat => os_mq_open name oflag creat
    | mq_getattr mqdes => os_mq_getattr mqdes
    | mq_close mqdes => os_mq_close mqdes
    | mq_unlink name => os_mq_unlink name
    | mq_send mqdes p len prio => os_mq_send mqdes p len prio
    | mq_receive mqdes p len prio => os_mq_receive mqdes p len prio
    | get_errno => fun w => Some (w_errno w, w)
    | printf text => fun w => Some (tt, put_stdout text w)
    | fprintf_stderr text => fun w => Some (tt, put_stderr text w)
    | perror s =>
        fun w => Some (tt, put_stderr (s ++ ": " ++ strerror (w_errno w) ++ newline) w)
    end.

(** a freshly booted system: nothing created, nothing open *)
Definition boot : world :=
  World ∅ [] [] 0 [] [] 10 8192.

End OS.

Export OS.

(** ** The library calls as data

    One constructor per wrapper of [posixmq.c], so that a statement can range
    over "every library operation". *)

Inductive lib_call : Type :=
| OpenCreate (name : string) (max_msg_size max_queue_size mq_id_out : Z)
| OpenExisting (name : string) (mq_id_out max_msg_size_out max_queue_size_out : Z)
| Close (mq : Z)
| Unlink (name : string)
| Send (mq : Z) (msg : list byte) (size priority : Z)
| Recv (mq : Z) (buf_out : list byte) (size_inout priority_out : Z).

(** the [RES_T] the caller gets *)
Definition result_of (c : lib_call) : Prog RES_T :=
  match c with
  | OpenCreate n a b i => r ← posixmq_open_create n a b i; Ret (fst r)
  | OpenExisting n i a b => r ← posixmq_open_existing n i a b; Ret (fst r)
  | Close mq => posixmq_close mq
  | Unlink n => posixmq_unlink n
  | Send mq m l p => posixmq_send mq m l p
  | Recv mq b l p => r ← posixmq_recv mq b l p; Ret (fst r)
  end.

(** the system call the wrapper is built around *)
Definition syscall_of (c : lib_call) : event :=
  match c with
  | OpenCreate n a b _ =>
      mq_open n (Z.lor O_CREAT O_RDWR)
        (Some (MODE_0644, MqAttr 0 (to_long b) (to_long a) 0))
  | OpenExisting n _ _ _ => mq_open n O_RDWR None
  | Close mq => mq_close mq
  | Unlink n => mq_unlink n
  | Send mq m l p => mq_send mq m l p
  | Recv mq b l p => mq_receive mq b l p
  end.

Definition is_recv (c : lib_call) : bool :=
  match c with Recv _ _ _ _ => true | _ => false end.

(** the integer a call returns *)
Definition status (e : event) : resp e -> Z :=
  match e return resp e -> Z with
  | mq_open _ _ _ => fun r => r
  | mq_getattr _ => fun r => fst r
  | mq_close _ => fun r => r
  | mq_unlink _ => fun r => r
  | mq_send _ _ _ _ => fun r => r
  | mq_receive _ _ _ _ => fun r => fst (fst r)
  | get_errno => fun r => r
  | printf _ => fun _ => 0
  | fprintf_stderr _ => fun _ => 0
  | perror _ => fun _ => 0
  end.

Definition is_open (e : event) : bool :=
  match e with mq_open _ _ _ => true | _ => false end.

Definition is_stderr (e : event) : bool :=
  match e with fprintf_stderr _ | perror _ => true | _ => false end.

(** [sub] occurs in [s] *)
Definition contains (sub s : string) : Prop :=
  exists pre post : string, s = pre ++ sub ++ post.

Definition is_send (e : event) : bool :=
  match e with mq_send _ _ _ _ => true | _ => false end.

(** what the caller of a library operation can observe of a run in the
    modelled system: the [RES_T] result and [errno] afterwards *)
Definition res_and_errno (c : lib_call) (w : world) : option (RES_T * Z) :=
  option_map (fun r => (fst r, w_errno (snd r)))
    (returned (exec os_handle (result_of c) w)).

(** ** Sample systems *)

(** one queue [/q], at most 10 messages of at most 8 bytes, empty, not open *)
Definition one_queue : world :=
  World {["/q" := 0%nat]} [MQueue 10 8 []] [] 0 [] [] 10 8192.

(** the same queue, open read-write on descriptor 0 *)
Definition one_queue_open : world :=
  World {["/q" := 0%nat]} [MQueue 10 8 []] [Some (MqDesc 0 O_RDWR)] 0 [] [] 10 8192.

(** the same again, with a three-byte message of priority 5 waiting *)
Definition one_message : world :=
  World {["/q" := 0%nat]} [MQueue 10 8 [Message 5 ["a"; "b"; "c"]%byte]]
        [Some (MqDesc 0 O_RDWR)] 0 [] [] 10 8192.

(** ** Classes of calls *)

(** reading [errno] or writing to either stream *)
Definition is_report (e : event) : bool :=
  match e with
  | get_errno | printf _ | fprintf_stderr _ | perror _ => true
  | _ => false
  end.

Definition is_stdout (e : event) : bool :=
  match e with printf _ => true | _ => false end.

Definition is_getattr (e : event) : bool :=
  match e with mq_getattr _ => true | _ => false end.

(** the calls that appear in the text of [main] *)
Definition main_call (e : event) : bool :=
  match e with
  | mq_open _ oflag None => oflag =? O_RDWR
  | mq_send _ _ _ prio => prio =? 1
  | get_errno | fprintf_stderr _ | perror _ => true
  | _ => false
  end.

(** a system in which [mq_open] hands out descriptor 3 and every other queue
    call fails *)
Definition only_open_works : handler unit :=
  fun e =>
    match e return unit -> option (resp e * unit) with
    | mq_open _ _ _ => fun s => Some (3, s)
    | mq_getattr _ => fun s => Some ((-1, MqAttr 0 7 9 0), s)
    | mq_close _ => fun s => Some (-1, s)
    | mq_unlink _ => fun s => Some (-1, s)
    | mq_send _ _ _ _ => fun s => Some (-1, s)
    | mq_receive _ buf _ prio => fun s => Some ((-1, buf, prio), s)
    | get_errno => fun s => Some (EBADF, s)
    | printf _ => fun s => Some (tt, s)
    | fprintf_stderr _ => fun s => Some (tt, s)
    | perror _ => fun s => Some (tt, s)
    end.

(** one queue [/q] of at most one message, already holding one, open
    read-write on descriptor 0 *)
Definition full_queue : world :=
  World {["/q" := 0%nat]} [MQueue 1 8 [Message 5 ["a"; "b"; "c"]%byte]]
        [Some (MqDesc 0 O_RDWR)] 0 [] [] 10 8192.

(** ** Queues within their limits *)

(** no waiting message is longer than the queue's message size, and no more
    messages wait than the queue's depth *)
Definition queue_ok (q : mqueue) : Prop :=
  0 <= q_msgsize q /\
  Forall (fun m => Z.of_nat (length (m_data m)) <= q_msgsize q) (q_msgs q) /\
  Z.of_nat (length (q_msgs q)) <= q_maxmsg q.

Definition world_ok (w : world) : Prop := Forall queue_ok (w_queues w).

(** * Properties *)

(** ** Integer conversions *)

Lemma to_size_t_range (z : Z) : 0 <= to_size_t z <= SIZE_MAX.
Proof.
  unfold to_size_t, SIZE_MAX, SIZE_WIDTH.
  pose proof (Z.mod_pos_bound z (2 ^ 64) ltac:(lia)). lia.
Qed.

Lemma to_size_t_never_negative (z : Z) : (to_size_t z <? 0) = false.
Proof. apply Z.ltb_ge. apply to_size_t_range. Qed.

Lemma to_size_t_id (z : Z) : is_size_t z -> to_size_t z = z.
Proof.
  unfold is_size_t, to_size_t, SIZE_MAX, SIZE_WIDTH. intros Hz.
  apply Z.mod_small. lia.
Qed.

Lemma to_size_t_to_long (z : Z) : to_size_t (to_long z) = to_size_t z.
Proof.
  unfold to_size_t, to_long, SIZE_WIDTH.
  replace (2 ^ (64 - 1)) with (2 ^ 63) by reflexivity.
  rewrite Zminus_mod, Zmod_mod, <- Zminus_mod.
  f_equal. lia.
Qed.

Lemma to_size_t_minus_one : to_size_t (-1) = 18446744073709551615.
Proof. reflexivity. Qed.

(** ** [posixmq_recv] *)

Section Recv.
Context {S : Type} (h : handler S).

(** What [posixmq_recv] does, whatever the system answers: one
    [mq_receive], nothing printed, result 0. *)
Lemma exec_posixmq_recv (mq : Z) (buf : list byte) (size prio : Z) (s : S) :
  exec h (posixmq_recv mq buf size prio) s =
    match h (mq_receive mq buf size prio) s with
    | Some ((r, buf', prio'), s') =>
        Outcome [mq_receive mq buf size prio]
          (Some ((0, (buf', to_size_t r, prio')), s'))
    | None => Outcome [mq_receive mq buf size prio] None
    end.
Proof.
  unfold posixmq_recv. cbn.
  destruct (h (mq_receive mq buf size prio) s) as [[[[r buf'] prio'] s']|];
    [|reflexivity].
  cbn. rewrite to_size_t_never_negative. reflexivity.
Qed.

End Recv.

(** C10. In [posixmq_recv] the result of [mq_receive] is held in a [size_t],
    so the test [res < 0] never succeeds: for every answer of the system the
    wrapper issues the one [mq_receive] call and nothing else (no [errno] read,
    no [printf]), returns 0, and stores the converted result in
    [*size_inout]; when [mq_receive] answers -1 the value stored is
    2^64 - 1. *)
Theorem posixmq_recv_error_branch_dead :
  forall (S : Type) (h : handler S) (s : S) (mq : Z) (buf : list byte)
         (size prio : Z),
    (forall r : Z, (to_size_t r <? 0) = false) /\
    exec h (posixmq_recv mq buf size prio) s =
      match h (mq_receive mq buf size prio) s with
      | Some ((r, buf', prio'), s') =>
          Outcome [mq_receive mq buf size prio]
            (Some ((0, (buf', to_size_t r, prio')), s'))
      | None => Outcome [mq_receive mq buf size prio] None
      end /\
    (forall (buf' : list byte) (prio' : Z) (s' : S),
        h (mq_receive mq buf size prio) s = Some ((-1, buf', prio'), s') ->
        returned (exec h (posixmq_recv mq buf size prio) s) =
          Some ((0, (buf', 2 ^ 64 - 1, prio')), s')).
Proof.
  intros S h s mq buf size prio. split; [exact to_size_t_never_negative|].
  split; [apply exec_posixmq_recv|].
  intros buf' prio' s' H. rewrite exec_posixmq_recv, H. reflexivity.
Qed.

(** ** [main] of [mqsend] *)

Section Main.
Context {S : Type} (h : handler S).

(** Any argument count other than four ends in the usage branch. *)
Lemma main_usage (argv : list string) (s : S) :
  length argv <> 4%nat ->
  main argv = (call (perror usage);; Ret 1) /\
  exec h (main argv) s =
    Outcome [perror usage]
      (match h (perror usage) s with
       | Some (_, s') => Some (1, s')
       | None => None
       end).
Proof.
  intros Hlen. unfold main.
  destruct (Z.of_nat (length argv) =? 4) eqn:E.
  - apply Z.eqb_eq in E. lia.
  - split; [reflexivity|]. cbn.
    destruct (h (perror usage) s) as [[u s']|]; reflexivity.
Qed.

(** The run of [main] on four arguments, by the answers it gets. *)
Lemma exec_main_4 (prog queue_name msg prio : string) (s : S) :
  exec h (main [prog; queue_name; msg; prio]) s =
    match h (mq_open queue_name O_RDWR None) s with
    | None => Outcome [mq_open queue_name O_RDWR None] None
    | Some (mqd, s1) =>
        if mqd <? 0 then
          match h get_errno s1 with
          | None => Outcome [mq_open queue_name O_RDWR None; get_errno] None
          | Some (e, s2) =>
              Outcome [mq_open queue_name O_RDWR None; get_errno;
                       fprintf_stderr (open_failed_line queue_name e)]
                (match h (fprintf_stderr (open_failed_line queue_name e)) s2 with
                 | Some (_, s3) => Some (1, s3)
                 | None => None
                 end)
          end
        else
          let snd_ev := mq_send mqd (bytes_of msg) (strlen msg) 1 in
          match h snd_ev s1 with
          | None => Outcome [mq_open queue_name O_RDWR None; snd_ev] None
          | Some (send_res, s2) =>
              if send_res =? 0 then
                Outcome [mq_open queue_name O_RDWR None; snd_ev] (Some (0, s2))
              else
                match h get_errno s2 with
                | None =>
                    Outcome [mq_open queue_name O_RDWR None; snd_ev; get_errno] None
                | Some (e, s3) =>
                    Outcome [mq_open queue_name O_RDWR None; snd_ev; get_errno;
                             fprintf_stderr (send_failed_line e)]
                      (match h (fprintf_stderr (send_failed_line e)) s3 with
                       | Some (_, s4) => Some (1, s4)
                       | None => None
                       end)
                end
          end
    end.
Proof.
  unfold main.
  change (Z.of_nat (length [prog; queue_name; msg; prio]) =? 4) with true.
  cbn -[bytes_of strlen open_failed_line send_failed_line].
  destruct (h (mq_open queue_name O_RDWR None) s) as [[mqd s1]|]; [|reflexivity].
  cbn. destruct (mqd <? 0).
  - cbn. destruct (h get_errno s1) as [[e s2]|]; [|reflexivity]. cbn.
    destruct (h (fprintf_stderr (open_failed_line queue_name e)) s2) as [[u s3]|];
      reflexivity.
  - cbn.
    destruct (h (mq_send mqd (bytes_of msg) (strlen msg) 1) s1)
      as [[send_res s2]|]; [|reflexivity].
    cbn. destruct (send_res =? 0); [reflexivity|]. cbn.
    destruct (h get_errno s2) as [[e s3]|]; [|reflexivity]. cbn.
    destruct (h (fprintf_stderr (send_failed_line e)) s3) as [[u s4]|];
      reflexivity.
Qed.

End Main.

Lemma string_append_assoc (a b c : string) : (a ++ b) ++ c = a ++ b ++ c.
Proof. induction a as [|ch a IH]; [reflexivity | exact (f_equal (String ch) IH)]. Qed.

Lemma contains_middle (pre sub post : string) : contains sub (pre ++ sub ++ post).
Proof. exists pre, post. reflexivity. Qed.

Lemma open_failed_line_contains (queue_name : string) (e : Z) :
  contains queue_name (open_failed_line queue_name e) /\
  contains (fmt_d e) (open_failed_line queue_name e).
Proof.
  split.
  - apply contains_middle.
  - exists ("Opening queue: " ++ queue_name ++ " failed with error: "), newline.
    unfold open_failed_line.
    rewrite !string_append_assoc. reflexivity.
Qed.

(** C7. Called with fewer than three positional arguments ([argv] shorter
    than four entries, the program name included), [main] prints the usage
    line with [perror] (standard error), returns 1, and issues no other
    call: no queue is opened. *)
Theorem main_too_few_arguments :
  forall argv : list string,
    (length argv < 4)%nat ->
    (forall (S : Type) (h : handler S) (s : S),
        issued (exec h (main argv) s) = [perror usage] /\
        forallb (fun e => negb (is_open e)) (issued (exec h (main argv) s)) = true) /\
    (forall w : world,
        returned (exec os_handle (main argv) w) =
          Some (1, put_stderr (usage ++ ": " ++ strerror (w_errno w) ++ newline) w)).
Proof.
  intros argv Hlen. split.
  - intros S h s. destruct (main_usage h argv s ltac:(lia)) as [_ ->].
    split; reflexivity.
  - intros w. destruct (main_usage os_handle argv w ltac:(lia)) as [_ ->].
    reflexivity.
Qed.

Lemma main_too_few_arguments_witness :
  (length ["mqsend"; "/q"; "hello"] < 4)%nat /\
  issued (exec os_handle (main ["mqsend"; "/q"; "hello"]) boot) = [perror usage] /\
  returned (exec os_handle (main ["mqsend"; "/q"; "hello"]) boot) =
    Some (1, put_stderr (usage ++ ": " ++ strerror 0 ++ newline) boot).
Proof.
  assert (Hlen : (length ["mqsend"; "/q"; "hello"] < 4)%nat) by (simpl; lia).
  destruct (main_too_few_arguments ["mqsend"; "/q"; "hello"] Hlen) as [Hg Hos].
  split; [exact Hlen|]. split.
  - exact (proj1 (Hg world os_handle boot)).
  - exact (Hos boot).
Defined.

(** C9. The argument check is [argc != 4]: with more than three positional
    arguments too, [main] prints the usage line, returns 1 and opens no
    queue. *)
Theorem main_too_many_arguments :
  forall argv : list string,
    (4 < length argv)%nat ->
    (forall (S : Type) (h : handler S) (s : S),
        issued (exec h (main argv) s) = [perror usage] /\
        forallb (fun e => negb (is_open e)) (issued (exec h (main argv) s)) = true) /\
    (forall w : world,
        returned (exec os_handle (main argv) w) =
          Some (1, put_stderr (usage ++ ": " ++ strerror (w_errno w) ++ newline) w)).
Proof.
  intros argv Hlen.
  assert (Hne : length argv <> 4%nat) by lia.
  split.
  - intros S h s. pose proof (main_usage h argv s Hne) as [_ E].
    rewrite E. split; reflexivity.
  - intros w. pose proof (main_usage os_handle argv w Hne) as [_ E].
    rewrite E. reflexivity.
Qed.

Lemma main_too_many_arguments_witness :
  (4 < length ["mqsend"; "/q"; "hello"; "1"; "extra"])%nat /\
  issued (exec os_handle (main ["mqsend"; "/q"; "hello"; "1"; "extra"]) boot) =
    [perror usage] /\
  returned (exec os_handle (main ["mqsend"; "/q"; "hello"; "1"; "extra"]) boot) =
    Some (1, put_stderr (usage ++ ": " ++ strerror 0 ++ newline) boot).
Proof.
  assert (Hlen : (4 < length ["mqsend"; "/q"; "hello"; "1"; "extra"])%nat)
    by (simpl; lia).
  destruct (main_too_many_arguments _ Hlen) as [Hg Hos].
  split; [exact Hlen|]. split.
  - exact (proj1 (Hg world os_handle boot)).
  - exact (Hos boot).
Defined.

(** C2. Once [main] gets a descriptor from [mq_open], the next call it
    issues is [mq_send] of the message text, its [strlen] and the literal
    priority 1, and no other [mq_send] follows; the program does not depend
    on the fourth entry of [argv] at all. *)
Theorem main_sends_at_priority_1 :
  forall (S : Type) (h : handler S) (s s1 : S)
         (prog queue_name msg prio : string) (mqd : Z),
    h (mq_open queue_name O_RDWR None) s = Some (mqd, s1) ->
    0 <= mqd ->
    (exists rest : list event,
        issued (exec h (main [prog; queue_name; msg; prio]) s) =
          mq_open queue_name O_RDWR None
            :: mq_send mqd (bytes_of msg) (strlen msg) 1 :: rest /\
        forallb (fun e => negb (is_send e)) rest = true) /\
    (forall prio' : string,
        main [prog; queue_name; msg; prio'] = main [prog; queue_name; msg; prio]).
Proof.
  intros S h s s1 prog queue_name msg prio mqd Hopen Hmqd.
  split; [|reflexivity].
  rewrite exec_main_4, Hopen.
  assert (E : (mqd <? 0) = false) by (apply Z.ltb_ge; exact Hmqd).
  rewrite E. cbv zeta.
  destruct (h (mq_send mqd (bytes_of msg) (strlen msg) 1) s1) as [[r s2]|].
  - destruct (r =? 0).
    + exists []. split; reflexivity.
    + destruct (h get_errno s2) as [[e s3]|].
      * eexists. split; reflexivity.
      * eexists. split; reflexivity.
  - exists []. split; reflexivity.
Qed.

Lemma main_sends_at_priority_1_witness :
  os_handle (mq_open "/q" O_RDWR None) one_queue =
    Some (0, set_fds [Some (MqDesc 0 O_RDWR)] one_queue) /\
  (exists rest : list event,
      issued (exec os_handle (main ["mqsend"; "/q"; "hi"; "7"]) one_queue) =
        mq_open "/q" O_RDWR None
          :: mq_send 0 (bytes_of "hi") (strlen "hi") 1 :: rest /\
      forallb (fun e => negb (is_send e)) rest = true) /\
  (forall prio' : string,
      main ["mqsend"; "/q"; "hi"; prio'] = main ["mqsend"; "/q"; "hi"; "7"]).
Proof.
  split; [reflexivity|].
  apply (main_sends_at_priority_1 world os_handle one_queue
           (set_fds [Some (MqDesc 0 O_RDWR)] one_queue) "mqsend" "/q" "hi" "7" 0).
  - reflexivity.
  - lia.
Defined.

(** In the modelled system the message of a successful [mqsend] run waits in
    the queue with priority 1, whatever priority was asked for. *)
Example mqsend_asked_7_got_1 :
  option_map (fun r => (fst r, w_queues (snd r)))
    (returned (exec os_handle (main ["mqsend"; "/q"; "hi"; "7"]) one_queue)) =
  Some (0, [MQueue 10 8 [Message 1 (bytes_of "hi")]]).
Proof. reflexivity. Qed.

(** ** Opening a queue that does not exist *)

Lemma os_open_missing (name : string) (w : world) :
  w_names w !! name = None ->
  exists e : Z,
    os_handle (mq_open name O_RDWR None) w = Some (-1, set_errno e w) /\
    (name_error name = None -> e = ENOENT).
Proof.
  intros Hnone. cbn. unfold os_mq_open.
  destruct (name_error name) as [e|].
  - exists e. split; [reflexivity | discriminate].
  - rewrite Hnone. exists ENOENT. split; reflexivity.
Qed.

(** C8. Run on a queue name that is not in the name space, [main] gets -1
    from [mq_open], writes the line
    [Opening queue: <name> failed with error: <errno>] to standard error,
    and returns 1; the line contains the queue name and the decimal error
    code, which is [ENOENT] for a well-formed name.  Nothing is sent. *)
Theorem main_missing_queue :
  forall (w : world) (prog queue_name msg prio : string),
    w_names w !! queue_name = None ->
    exists e : Z,
      os_handle (mq_open queue_name O_RDWR None) w = Some (-1, set_errno e w) /\
      exec os_handle (main [prog; queue_name; msg; prio]) w =
        Outcome [mq_open queue_name O_RDWR None; get_errno;
                 fprintf_stderr (open_failed_line queue_name e)]
          (Some (1, put_stderr (open_failed_line queue_name e) (set_errno e w))) /\
      contains queue_name (open_failed_line queue_name e) /\
      contains (fmt_d e) (open_failed_line queue_name e) /\
      (name_error queue_name = None -> e = ENOENT).
Proof.
  intros w prog queue_name msg prio Hnone.
  destruct (os_open_missing queue_name w Hnone) as (e & Hopen & He).
  exists e. rewrite exec_main_4, Hopen.
  split; [reflexivity|]. split; [reflexivity|].
  split; [apply open_failed_line_contains|].
  split; [apply open_failed_line_contains | exact He].
Qed.

Lemma main_missing_queue_witness :
  w_names one_queue !! "/nope" = None /\
  exists e : Z,
    os_handle (mq_open "/nope" O_RDWR None) one_queue =
      Some (-1, set_errno e one_queue) /\
    exec os_handle (main ["mqsend"; "/nope"; "hi"; "1"]) one_queue =
      Outcome [mq_open "/nope" O_RDWR None; get_errno;
               fprintf_stderr (open_failed_line "/nope" e)]
        (Some (1, put_stderr (open_failed_line "/nope" e) (set_errno e one_queue))) /\
    contains "/nope" (open_failed_line "/nope" e) /\
    contains (fmt_d e) (open_failed_line "/nope" e) /\
    (name_error "/nope" = None -> e = ENOENT).
Proof.
  split; [reflexivity|].
  apply (main_missing_queue one_queue "mqsend" "/nope" "hi" "1").
  reflexivity.
Defined.

Example mqsend_missing_queue_stderr :
  option_map (fun r => (fst r, w_stderr (snd r), w_stdout (snd r)))
    (returned (exec os_handle (main ["mqsend"; "/nope"; "hi"; "1"]) one_queue)) =
  Some (1, ["Opening queue: /nope failed with error: 2" ++ newline], []).
Proof. reflexivity. Qed.

(** ** Failure of a library operation *)

Section Failure.
Context {S : Type} (h : handler S).

(** The run of every wrapper but [posixmq_recv] when its system call
    answers with a negative value. *)
Lemma exec_failure (c : lib_call) (s s1 : S) (r : resp (syscall_of c)) :
  is_recv c = false ->
  h (syscall_of c) s = Some (r, s1) ->
  status (syscall_of c) r < 0 ->
  exec h (result_of c) s =
    match h get_errno s1 with
    | Some (e, s2) =>
        Outcome [syscall_of c; get_errno; printf (errno_line e)]
          (match h (printf (errno_line e)) s2 with
           | Some (_, s3) => Some (-1, s3)
           | None => None
           end)
    | None => Outcome [syscall_of c; get_errno] None
    end.
Proof.
  intros Hc Hsys Hneg.
  destruct c; try discriminate Hc; cbn in r, Hsys, Hneg;
    apply Z.ltb_lt in Hneg;
    cbn -[errno_line]; rewrite Hsys; cbn -[errno_line]; rewrite Hneg;
    cbn -[errno_line];
    (destruct (h get_errno s1) as [[e s2]|]; [|reflexivity]);
    cbn -[errno_line];
    (destruct (h (printf (errno_line e)) s2) as [[u s3]|]; reflexivity).
Qed.

End Failure.

(** The queue calls of the modelled system leave both output streams
    alone. *)
Lemma os_syscall_keeps_streams (c : lib_call) (w w1 : world)
    (r : resp (syscall_of c)) :
  os_handle (syscall_of c) w = Some (r, w1) ->
  w_stdout w1 = w_stdout w /\ w_stderr w1 = w_stderr w.
Proof.
  destruct c; cbn in r |- *;
    unfold os_mq_open, os_mq_close, os_mq_unlink, os_mq_send, os_mq_receive,
      open_fd, fails;
    intros H; repeat case_match; simplify_eq; split; reflexivity.
Qed.

(** C5, as the code has it.  For create-or-open, open-existing, close,
    unlink and send: when the system call answers with a negative value, the
    wrapper reads [errno] and prints [Errno: <code>] with [printf], that is
    on standard output; standard error is left as it was. *)
Theorem library_failure_printed_on_stdout :
  forall (c : lib_call) (w w1 : world) (r : resp (syscall_of c)),
    is_recv c = false ->
    os_handle (syscall_of c) w = Some (r, w1) ->
    status (syscall_of c) r < 0 ->
    issued (exec os_handle (result_of c) w) =
      [syscall_of c; get_errno; printf (errno_line (w_errno w1))] /\
    forallb (fun e => negb (is_stderr e)) (issued (exec os_handle (result_of c) w)) =
      true /\
    exists w' : world,
      returned (exec os_handle (result_of c) w) = Some (-1, w') /\
      w_stdout w' = (w_stdout w ++ [errno_line (w_errno w1)])%list /\
      w_stderr w' = w_stderr w.
Proof.
  intros c w w1 r Hc Hsys Hneg.
  rewrite (exec_failure os_handle c w w1 r Hc Hsys Hneg).
  destruct (os_syscall_keeps_streams c w w1 r Hsys) as [Hout Herr].
  cbn -[errno_line]. split; [reflexivity|].
  split; [destruct c; try discriminate Hc; reflexivity|].
  eexists. split; [reflexivity|].
  cbn -[errno_line]. rewrite Hout, Herr. split; reflexivity.
Qed.

Lemma library_failure_printed_on_stdout_witness :
  issued (exec os_handle (result_of (Unlink "/nope")) boot) =
    [mq_unlink "/nope"; get_errno; printf (errno_line ENOENT)] /\
  forallb (fun e => negb (is_stderr e))
    (issued (exec os_handle (result_of (Unlink "/nope")) boot)) = true /\
  exists w' : world,
    returned (exec os_handle (result_of (Unlink "/nope")) boot) = Some (-1, w') /\
    w_stdout w' = (w_stdout boot ++ [errno_line ENOENT])%list /\
    w_stderr w' = w_stderr boot.
Proof.
  apply (library_failure_printed_on_stdout (Unlink "/nope") boot
           (set_errno ENOENT boot) (-1)).
  - reflexivity.
  - reflexivity.
  - cbn. lia.
Defined.

(** C5 as stated fails: a failing [posixmq_unlink] writes nothing to standard
    error; the error code goes to standard output. *)
Lemma unlink_failure_not_on_stderr :
  os_handle (mq_unlink "/nope") boot = Some (-1, set_errno ENOENT boot) /\
  option_map (fun r => (fst r, w_stdout (snd r), w_stderr (snd r)))
    (returned (exec os_handle (posixmq_unlink "/nope") boot)) =
  Some (-1, ["Errno: 2" ++ newline], []).
Proof. split; reflexivity. Qed.

(** C6, as the code has it.  For create-or-open, open-existing, close,
    unlink and send: when the system call answers with a negative value the
    caller gets the plain integer -1, the same for every operation and every
    error code; the system call is issued once and is followed only by the
    [errno] read and the [printf]. *)
Theorem library_failure_returns_minus_one :
  forall (S : Type) (h : handler S) (c : lib_call) (s s1 s2 s3 : S)
         (r : resp (syscall_of c)) (e : Z) (u : unit),
    is_recv c = false ->
    h (syscall_of c) s = Some (r, s1) ->
    status (syscall_of c) r < 0 ->
    h get_errno s1 = Some (e, s2) ->
    h (printf (errno_line e)) s2 = Some (u, s3) ->
    exec h (result_of c) s =
      Outcome [syscall_of c; get_errno; printf (errno_line e)] (Some (-1, s3)).
Proof.
  intros S h c s s1 s2 s3 r e u Hc Hsys Hneg Herrno Hprint.
  rewrite (exec_failure h c s s1 r Hc Hsys Hneg), Herrno, Hprint.
  reflexivity.
Qed.

Lemma library_failure_returns_minus_one_witness :
  exec os_handle (result_of (Close 7)) one_queue_open =
    Outcome [mq_close 7; get_errno; printf (errno_line EBADF)]
      (Some (-1, put_stdout (errno_line EBADF) (set_errno EBADF one_queue_open))).
Proof.
  apply (library_failure_returns_minus_one world os_handle (Close 7)
           one_queue_open (set_errno EBADF one_queue_open)
           (set_errno EBADF one_queue_open)
           (put_stdout (errno_line EBADF) (set_errno EBADF one_queue_open))
           (-1) EBADF tt).
  - reflexivity.
  - reflexivity.
  - cbn. lia.
  - reflexivity.
  - reflexivity.
Defined.

(** C6 as stated fails: two sends that fail for different reasons, and a
    failing close, hand the caller the same value, so no error code (and no
    operation tag) can be read off the result. *)
Lemma result_does_not_carry_errno :
  res_and_errno (Send 0 (bytes_of "123456789") 9 1) one_queue_open =
    Some (-1, EMSGSIZE) /\
  res_and_errno (Send 7 (bytes_of "hi") 2 1) one_queue_open = Some (-1, EBADF) /\
  res_and_errno (Close 7) one_queue_open = Some (-1, EBADF) /\
  ~ (exists code_of : RES_T -> Z,
        forall (c : lib_call) (r e : Z),
          res_and_errno c one_queue_open = Some (r, e) -> r <> 0 -> code_of r = e).
Proof.
  split; [reflexivity|]. split; [reflexivity|]. split; [reflexivity|].
  intros [code_of H].
  pose proof (H (Send 0 (bytes_of "123456789") 9 1) (-1) EMSGSIZE
                eq_refl ltac:(lia)) as H1.
  pose proof (H (Send 7 (bytes_of "hi") 2 1) (-1) EBADF eq_refl ltac:(lia)) as H2.
  rewrite H1 in H2. discriminate H2.
Qed.

(** ** Receiving into a short buffer *)

(** In the modelled system a failing [mq_receive] takes nothing off any
    queue. *)
Lemma os_receive_failure_keeps_queues (mq : Z) (buf : list byte) (len prio : Z)
    (w w1 : world) (r : Z) (buf' : list byte) (prio' : Z) :
  os_mq_receive mq buf len prio w = Some (r, buf', prio', w1) ->
  r < 0 ->
  w_queues w1 = w_queues w /\ buf' = buf /\ prio' = prio.
Proof.
  unfold os_mq_receive, fails. intros H Hr.
  repeat case_match; simplify_eq; try (split; [reflexivity | split; reflexivity]).
  lia.
Qed.

(** With a buffer shorter than the queue's message size, or a descriptor
    that is not open, [mq_receive] fails, and [posixmq_recv] still returns 0,
    with 2^64 - 1 as the size. *)
Lemma posixmq_recv_reports_success_on_failure (mq : Z) (buf : list byte)
    (size prio : Z) (w : world) :
  (fd_lookup w mq = None \/
   exists d q, fd_lookup w mq = Some d /\ can_read (d_oflag d) = true /\
               queue_of w d = Some q /\ size < q_msgsize q) ->
  exists e : Z,
    (e = EBADF \/ e = EMSGSIZE) /\
    exec os_handle (posixmq_recv mq buf size prio) w =
      Outcome [mq_receive mq buf size prio]
        (Some ((0, (buf, SIZE_MAX, prio)), set_errno e w)).
Proof.
  intros H. rewrite exec_posixmq_recv. cbn. unfold os_mq_receive.
  destruct H as [H | (d & q & Hd & Hr & Hq & Hlt)].
  - rewrite H. exists EBADF. split; [left; reflexivity | reflexivity].
  - rewrite Hd, Hr, Hq. cbn.
    apply Z.ltb_lt in Hlt. rewrite Hlt.
    exists EMSGSIZE. split; [right; reflexivity | reflexivity].
Qed.

(** C1, at a concrete input.  A message of priority 5 waits in a queue whose
    message size is 8.  [posixmq_recv] with a 4-byte buffer: [mq_receive]
    fails with [EMSGSIZE] and the message stays in the queue, but the wrapper
    returns 0, not -1, and sets the size to 2^64 - 1.  The same happens on a
    descriptor that is not open ([EBADF]). *)
Example posixmq_recv_short_buffer_returns_0 :
  exec os_handle (posixmq_recv 0 (bytes_of "....") 4 0) one_message =
    Outcome [mq_receive 0 (bytes_of "....") 4 0]
      (Some ((0, (bytes_of "....", 18446744073709551615, 0)),
             set_errno EMSGSIZE one_message)) /\
  w_queues (set_errno EMSGSIZE one_message) = w_queues one_message /\
  exec os_handle (posixmq_recv 7 (bytes_of "........") 8 0) one_message =
    Outcome [mq_receive 7 (bytes_of "........") 8 0]
      (Some ((0, (bytes_of "........", 18446744073709551615, 0)),
             set_errno EBADF one_message)).
Proof. split; [reflexivity | split; reflexivity]. Qed.

Lemma posixmq_recv_error_branch_dead_witness :
  os_handle (mq_receive 7 (bytes_of "........") 8 0) one_queue_open =
    Some ((-1, bytes_of "........", 0), set_errno EBADF one_queue_open) /\
  returned (exec os_handle (posixmq_recv 7 (bytes_of "........") 8 0) one_queue_open) =
    Some ((0, (bytes_of "........", 2 ^ 64 - 1, 0)), set_errno EBADF one_queue_open).
Proof.
  split; [reflexivity|].
  apply (posixmq_recv_error_branch_dead world os_handle one_queue_open 7
           (bytes_of "........") 8 0).
  reflexivity.
Defined.

(** ** Descriptors and queues of the modelled system *)

Lemma alloc_fd_lookup (fds fds' : list (option mqdesc)) (d : mqdesc) (i : nat) :
  alloc_fd fds d = (i, fds') -> fds' !! i = Some (Some d).
Proof.
  revert i fds'. induction fds as [|[d'|] fds IH]; intros i fds' H; simpl in H.
  - inversion H; subst. reflexivity.
  - destruct (alloc_fd fds d) as [j fds''] eqn:E.
    inversion H; subst. simpl. apply IH. reflexivity.
  - inversion H; subst. reflexivity.
Qed.

Lemma open_fd_spec (q : nat) (oflag : Z) (w w1 : world) (fd : Z) :
  open_fd q oflag w = (fd, w1) ->
  0 <= fd /\ fd_lookup w1 fd = Some (MqDesc q oflag) /\
  w_names w1 = w_names w /\ w_queues w1 = w_queues w.
Proof.
  unfold open_fd. destruct (alloc_fd (w_fds w) (MqDesc q oflag)) as [i fds] eqn:E.
  intros H. inversion H; subst; clear H.
  split; [lia|]. split; [|split; reflexivity].
  unfold fd_lookup. cbn.
  destruct (Z.of_nat i <? 0) eqn:Hneg; [apply Z.ltb_lt in Hneg; lia|].
  rewrite Nat2Z.id, (alloc_fd_lookup _ _ _ _ E). reflexivity.
Qed.

(** A successful [mq_open] with [O_CREAT | O_RDWR]: the name is bound
    afterwards, to the queue it was bound to before or to a new queue with
    the attributes asked for. *)
Lemma os_create_ok (name : string) (mode : Z) (attr : mq_attr) (w w1 : world)
    (fd : Z) :
  os_mq_open name (Z.lor O_CREAT O_RDWR) (Some (mode, attr)) w = Some (fd, w1) ->
  0 <= fd ->
  name_error name = None /\
  ((exists q : nat,
       w_names w !! name = Some q /\ w_names w1 !! name = Some q /\
       w_queues w1 = w_queues w) \/
   (w_names w !! name = None /\
    exists q : nat,
      w_names w1 !! name = Some q /\
      w_queues w1 !! q = Some (MQueue (mq_maxmsg attr) (mq_msgsize attr) []))).
Proof.
  unfold os_mq_open, fails. intros H Hfd.
  destruct (name_error name) as [e|]; [simplify_eq; lia|].
  split; [reflexivity|].
  destruct (w_names w !! name) as [q|] eqn:Hq.
  - change (has_flag O_CREAT (Z.lor O_CREAT O_RDWR) &&
            has_flag O_EXCL (Z.lor O_CREAT O_RDWR)) with false in H.
    cbv iota in H.
    destruct (open_fd q (Z.lor O_CREAT O_RDWR) w) as [fd' w'] eqn:E.
    apply open_fd_spec in E as (_ & _ & Hn & Hqs). simplify_eq.
    left. exists q. rewrite Hn. auto.
  - change (has_flag O_CREAT (Z.lor O_CREAT O_RDWR)) with true in H.
    cbv iota in H.
    destruct (attr_ok w attr); [|simplify_eq; lia].
    match type of H with
    | Some (open_fd ?q ?f ?w0) = _ => destruct (open_fd q f w0) as [fd' w'] eqn:E
    end.
    apply open_fd_spec in E as (_ & _ & Hn & Hqs). simplify_eq.
    right. split; [reflexivity|]. exists (length (w_queues w)).
    rewrite Hn, Hqs. cbn. split.
    + apply lookup_insert_eq.
    + rewrite lookup_app_r by lia. rewrite Nat.sub_diag. reflexivity.
Qed.

(** [mq_open] without [O_CREAT] on a bound, well-formed name, and
    [mq_getattr] on the descriptor it gives. *)
Lemma os_open_existing_ok (name : string) (w : world) (q : nat) (mq : mqueue) :
  name_error name = None ->
  w_names w !! name = Some q ->
  w_queues w !! q = Some mq ->
  exists (fd : Z) (w1 : world) (flags cur : Z),
    os_mq_open name O_RDWR None w = Some (fd, w1) /\ 0 <= fd /\
    os_mq_getattr fd w1 =
      Some (0, MqAttr flags (q_maxmsg mq) (q_msgsize mq) cur, w1).
Proof.
  intros Hname Hq Hmq. unfold os_mq_open. rewrite Hname, Hq.
  change (has_flag O_CREAT O_RDWR && has_flag O_EXCL O_RDWR) with false.
  cbv iota.
  destruct (open_fd q O_RDWR w) as [fd w1] eqn:E.
  apply open_fd_spec in E as (Hfd & Hd & Hn & Hqs).
  exists fd, w1. do 2 eexists. split; [reflexivity|]. split; [exact Hfd|].
  unfold os_mq_getattr, queue_of. rewrite Hd. cbn. rewrite Hqs, Hmq.
  reflexivity.
Qed.

(** ** Create-or-open, then open-existing *)

Section Open.
Context {S : Type} (h : handler S).

Lemma exec_posixmq_open_create_ok (name : string) (size depth id0 : Z) (s : S)
    (res fd : Z) (s1 : S) :
  returned (exec h (posixmq_open_create name size depth id0) s) =
    Some ((res, fd), s1) ->
  res = 0 ->
  h (mq_open name (Z.lor O_CREAT O_RDWR)
       (Some (MODE_0644, MqAttr 0 (to_long depth) (to_long size) 0))) s = Some (fd, s1) /\
  0 <= fd.
Proof.
  unfold posixmq_open_create. cbn -[errno_line Z.lor].
  destruct (h _ s) as [[mqd s']|]; [|discriminate].
  cbn -[errno_line]. destruct (mqd <? 0) eqn:E.
  - cbn -[errno_line]. destruct (h get_errno s') as [[e s2]|]; [|discriminate].
    cbn -[errno_line]. destruct (h (printf (errno_line e)) s2) as [[u s3]|];
      cbn; intros H Hres; simplify_eq.
  - cbn. intros H _. simplify_eq. apply Z.ltb_ge in E. auto.
Qed.

Lemma exec_posixmq_open_existing_ok (name : string) (id0 size0 depth0 : Z)
    (s s1 s2 : S) (fd r : Z) (attrs : mq_attr) :
  h (mq_open name O_RDWR None) s = Some (fd, s1) ->
  0 <= fd ->
  h (mq_getattr fd) s1 = Some ((r, attrs), s2) ->
  exec h (posixmq_open_existing name id0 size0 depth0) s =
    Outcome [mq_open name O_RDWR None; mq_getattr fd]
      (Some ((0, (fd, to_size_t (mq_msgsize attrs), to_size_t (mq_maxmsg attrs))),
             s2)).
Proof.
  intros Hopen Hfd Hattr. unfold posixmq_open_existing.
  cbn -[errno_line]. rewrite Hopen. cbn -[errno_line].
  apply Z.ltb_ge in Hfd. rewrite Hfd. cbn. rewrite Hattr. reflexivity.
Qed.

End Open.

(** C4, as the code has it.  A successful create-or-open with
    ([max_msg_size], [max_queue_size]) followed by open-existing on the same
    name succeeds and writes back exactly these two values, provided the
    name was free before the create-or-open, or named a queue that already
    had these attributes. *)
Theorem create_then_open_existing :
  forall (w w1 : world) (name : string) (size depth id0 fd id1 size0 depth0 : Z),
    is_size_t size ->
    is_size_t depth ->
    (forall q : nat,
        w_names w !! name = Some q ->
        exists mq : mqueue,
          w_queues w !! q = Some mq /\ q_msgsize mq = size /\ q_maxmsg mq = depth) ->
    returned (exec os_handle (posixmq_open_create name size depth id0) w) =
      Some ((0, fd), w1) ->
    exists (fd' : Z) (w2 : world),
      returned (exec os_handle (posixmq_open_existing name id1 size0 depth0) w1) =
        Some ((0, (fd', size, depth)), w2).
Proof.
  intros w w1 name size depth id0 fd id1 size0 depth0 Hsize Hdepth Hold Hcreate.
  apply exec_posixmq_open_create_ok in Hcreate as [Hopen Hfd]; [|reflexivity].
  apply os_create_ok in Hopen as [Hname Hcase]; [|exact Hfd].
  assert (exists (q : nat) (mq : mqueue),
             w_names w1 !! name = Some q /\ w_queues w1 !! q = Some mq /\
             to_size_t (q_msgsize mq) = size /\ to_size_t (q_maxmsg mq) = depth)
    as (q & mq & Hq & Hmq & Hs & Hd).
  { destruct Hcase as [(q & Hq & Hq1 & Hqs) | (Hfree & q & Hq1 & Hmq)].
    - destruct (Hold q Hq) as (mq & Hmq & Hs & Hd).
      exists q, mq. rewrite Hqs, Hs, Hd.
      rewrite !to_size_t_id by assumption. auto.
    - exists q. eexists. split; [exact Hq1|]. split; [exact Hmq|]. cbn.
      rewrite !to_size_t_to_long, !to_size_t_id by assumption. auto. }
  destruct (os_open_existing_ok name w1 q mq Hname Hq Hmq)
    as (fd' & w2 & flags & cur & Hopen' & Hfd' & Hattr).
  exists fd', w2.
  rewrite (exec_posixmq_open_existing_ok os_handle name id1 size0 depth0
             w1 w2 w2 fd' 0 _ Hopen' Hfd' Hattr).
  cbn. rewrite Hs, Hd. reflexivity.
Qed.

Lemma create_then_open_existing_witness :
  returned (exec os_handle (posixmq_open_create "/new" 16 5 (-1)) one_queue) =
    Some ((0, 0),
          World {["/new" := 1%nat; "/q" := 0%nat]} [MQueue 10 8 []; MQueue 5 16 []]
            [Some (MqDesc 1 (Z.lor O_CREAT O_RDWR))] 0 [] [] 10 8192) /\
  exists (fd' : Z) (w2 : world),
    returned (exec os_handle (posixmq_open_existing "/new" (-1) 0 0)
                (World {["/new" := 1%nat; "/q" := 0%nat]}
                   [MQueue 10 8 []; MQueue 5 16 []]
                   [Some (MqDesc 1 (Z.lor O_CREAT O_RDWR))] 0 [] [] 10 8192)) =
      Some ((0, (fd', 16, 5)), w2).
Proof.
  split; [reflexivity|].
  apply (create_then_open_existing one_queue _ "/new" 16 5 (-1) 0 (-1) 0 0).
  - unfold is_size_t, SIZE_MAX, SIZE_WIDTH. lia.
  - unfold is_size_t, SIZE_MAX, SIZE_WIDTH. lia.
  - intros q Hq. exfalso. vm_compute in Hq. discriminate Hq.
  - reflexivity.
Defined.

(** C4 as stated fails when the queue is already there: create-or-open with
    (16, 5) on a queue made with (8, 10) succeeds, and open-existing then
    writes back 8 and 10. *)
Lemma create_on_existing_keeps_old_attributes :
  option_map fst
    (returned
       (exec os_handle
          (first ← posixmq_open_create "/q" 8 10 (-1);
           again ← posixmq_open_create "/q" 16 5 (-1);
           existing ← posixmq_open_existing "/q" (-1) 0 0;
           Ret (first, again, existing))
          boot)) =
  Some ((0, 0), (0, 1), (0, (2, 8, 10))) /\
  (8, 10) <> (16, 5).
Proof. split; [reflexivity | discriminate]. Qed.

(** ** Send, then receive *)

Section SendRun.
Context {S : Type} (h : handler S).

Lemma exec_posixmq_send_ok (mq : Z) (msg : list byte) (size prio : Z)
    (s s1 : S) (res : Z) :
  returned (exec h (posixmq_send mq msg size prio) s) = Some (res, s1) ->
  res = 0 ->
  exists r : Z, h (mq_send mq msg size prio) s = Some (r, s1) /\ 0 <= r.
Proof.
  unfold posixmq_send. cbn -[errno_line].
  destruct (h _ s) as [[r s']|]; [|discriminate].
  cbn -[errno_line]. destruct (r <? 0) eqn:E.
  - cbn -[errno_line]. destruct (h get_errno s') as [[e s2]|]; [|discriminate].
    cbn -[errno_line]. destruct (h (printf (errno_line e)) s2) as [[u s3]|];
      cbn; intros H Hres; simplify_eq.
  - cbn. intros H _. simplify_eq. apply Z.ltb_ge in E. eauto.
Qed.

End SendRun.

(** What a successful [mq_send] does in the modelled system. *)
Lemma os_send_ok (mq : Z) (msg : list byte) (size prio : Z) (w w1 : world)
    (r : Z) (d : mqdesc) (q : mqueue) :
  os_mq_send mq msg size prio w = Some (r, w1) ->
  0 <= r ->
  fd_lookup w mq = Some d ->
  queue_of w d = Some q ->
  size <= q_msgsize q /\
  w1 = set_queues
         (<[d_queue d :=
              set_msgs (enqueue (Message prio (take (Z.to_nat size) msg)) (q_msgs q)) q]>
            (w_queues w)) w.
Proof.
  unfold os_mq_send, fails. intros H Hr Hd Hq. rewrite Hd, Hq in H.
  repeat case_match; simplify_eq; try lia.
  split; [lia | reflexivity].
Qed.

(** C3.  On a queue with no message waiting, a [posixmq_send] of [size]
    bytes at priority [priority] that returns 0, followed by a
    [posixmq_recv] with a capacity of at least the queue's message size whose
    [mq_receive] succeeds, gives back the [size] bytes sent at the start of
    the buffer, [size] as the byte count and [priority] as the priority, and
    returns 0. *)
Theorem send_recv_roundtrip :
  forall (w w1 w2 : world) (mq : Z) (d : mqdesc) (q : mqueue)
         (msg : list byte) (size priority : Z)
         (buf buf' : list byte) (cap prio0 r prio' : Z),
    fd_lookup w mq = Some d ->
    queue_of w d = Some q ->
    q_msgs q = [] ->
    is_size_t size ->
    size <= Z.of_nat (length msg) ->
    returned (exec os_handle (posixmq_send mq msg size priority) w) = Some (0, w1) ->
    q_msgsize q <= cap ->
    os_handle (mq_receive mq buf cap prio0) w1 = Some ((r, buf', prio'), w2) ->
    0 <= r ->
    size <= q_msgsize q /\
    exec os_handle (posixmq_recv mq buf cap prio0) w1 =
      Outcome [mq_receive mq buf cap prio0]
        (Some ((0, (buf', size, priority)), w2)) /\
    take (Z.to_nat size) buf' = take (Z.to_nat size) msg /\
    length (take (Z.to_nat size) msg) = Z.to_nat size.
Proof.
  intros w w1 w2 mq d q msg size priority buf buf' cap prio0 r prio'
    Hd Hq Hempty Hsize Hlen Hsend Hcap Hrecv Hr.
  apply exec_posixmq_send_ok in Hsend as (rs & Hsend & Hrs); [|reflexivity].
  cbn in Hsend.
  destruct (os_send_ok _ _ _ _ _ _ _ d q Hsend Hrs Hd Hq) as [Hfit ->].
  assert (Htake : length (take (Z.to_nat size) msg) = Z.to_nat size).
  { rewrite length_take. destruct Hsize as [H0 _]. lia. }
  assert (Hlt : (d_queue d < length (w_queues w))%nat).
  { unfold queue_of in Hq. eapply lookup_lt_Some. exact Hq. }
  split; [exact Hfit|].
  rewrite exec_posixmq_recv, Hrecv.
  cbn in Hrecv. unfold os_mq_receive, fails, queue_of, fd_lookup in Hrecv.
  unfold fd_lookup in Hd. cbn in Hrecv. rewrite Hd in Hrecv.
  rewrite list_lookup_insert_eq in Hrecv by exact Hlt.
  rewrite Hempty in Hrecv. cbn in Hrecv.
  destruct (can_read (d_oflag d)); cbn in Hrecv; [|simplify_eq; lia].
  destruct (cap <? q_msgsize q) eqn:E; [apply Z.ltb_lt in E; lia|].
  injection Hrecv as Hr' Hbuf Hprio Hw.
  rewrite Htake in Hr'. rewrite Z2Nat.id in Hr' by (destruct Hsize; lia).
  subst r prio'. rewrite to_size_t_id by exact Hsize.
  split; [reflexivity|]. split; [|exact Htake].
  rewrite <- Hbuf. unfold write_buf.
  rewrite <- Htake at 1. apply take_app_length.
Qed.

Lemma send_recv_roundtrip_witness :
  returned (exec os_handle (posixmq_send 0 (bytes_of "abc") 3 5) one_queue_open) =
    Some (0, one_message) /\
  os_handle (mq_receive 0 (bytes_of "........") 8 0) one_message =
    Some ((3, bytes_of "abc.....", 5), one_queue_open) /\
  exec os_handle (posixmq_recv 0 (bytes_of "........") 8 0) one_message =
    Outcome [mq_receive 0 (bytes_of "........") 8 0]
      (Some ((0, (bytes_of "abc.....", 3, 5)), one_queue_open)) /\
  take (Z.to_nat 3) (bytes_of "abc.....") = take (Z.to_nat 3) (bytes_of "abc").
Proof.
  split; [reflexivity|]. split; [reflexivity|].
  pose proof (send_recv_roundtrip one_queue_open one_message one_queue_open 0
                (MqDesc 0 O_RDWR) (MQueue 10 8 []) (bytes_of "abc") 3 5
                (bytes_of "........") (bytes_of "abc.....") 8 0 3 5)
    as H.
  destruct H as (_ & Hexec & Hbytes & _).
  - reflexivity.
  - reflexivity.
  - reflexivity.
  - unfold is_size_t, SIZE_MAX, SIZE_WIDTH. lia.
  - cbn. lia.
  - reflexivity.
  - cbn. lia.
  - reflexivity.
  - lia.
  - split; [exact Hexec | exact Hbytes].
Defined.

(** On a descriptor open for reading too, as the library's own open calls
    make them, the receive of C3 does succeed. *)
Lemma os_receive_after_send (w w1 : world) (mq : Z) (d : mqdesc) (q : mqueue)
    (msg buf : list byte) (size priority cap prio0 : Z) :
  fd_lookup w mq = Some d ->
  queue_of w d = Some q ->
  can_read (d_oflag d) = true ->
  q_msgsize q <= cap ->
  os_mq_send mq msg size priority w = Some (0, w1) ->
  exists (r : Z) (buf' : list byte) (prio' : Z) (w2 : world),
    os_handle (mq_receive mq buf cap prio0) w1 = Some ((r, buf', prio'), w2) /\
    0 <= r.
Proof.
  intros Hd Hq Hread Hcap Hsend.
  destruct (os_send_ok _ _ _ _ _ _ _ d q Hsend ltac:(lia) Hd Hq) as [Hfit ->].
  assert (Hlt : (d_queue d < length (w_queues w))%nat).
  { unfold queue_of in Hq. eapply lookup_lt_Some. exact Hq. }
  cbn. unfold os_mq_receive, queue_of, fd_lookup. unfold fd_lookup in Hd.
  cbn. rewrite Hd, Hread, list_lookup_insert_eq by exact Hlt. cbn.
  destruct (cap <? q_msgsize q) eqn:E; [apply Z.ltb_lt in E; lia|].
  destruct (enqueue (Message priority (take (Z.to_nat size) msg)) (q_msgs q))
    as [|m rest] eqn:Hm.
  - destruct (q_msgs q) as [|m' l]; cbn in Hm; [discriminate|].
    destruct (m_prio m' <? priority); discriminate.
  - do 4 eexists. split; [reflexivity | lia].
Qed.


(** * Further properties of the two sources *)

(** ** Runs of composed programs *)

Section Bind.
Context {S : Type} (h : handler S).

Lemma exec_bind {A B : Type} (p : Prog A) (f : A -> Prog B) (s : S) :
  exec h (bind p f) s =
    match returned (exec h p s) with
    | Some (a, s1) =>
        Outcome (issued (exec h p s) ++ issued (exec h (f a) s1))%list
          (returned (exec h (f a) s1))
    | None => Outcome (issued (exec h p s)) None
    end.
Proof.
  revert s. induction p as [a | e k IH]; intros s.
  - cbn. destruct (exec h (f a) s); reflexivity.
  - cbn. destruct (h e s) as [[r s1]|]; [|reflexivity].
    rewrite IH. cbn. destruct (returned (exec h (k r) s1)) as [[a s2]|];
      reflexivity.
Qed.


End Bind.

(** ** The library, whatever the system answers *)

(** Case analysis on every answer the handler gives and every test on a
    returned value, in the goal or in the hypothesis that fixes the run. *)
Ltac run_cases h :=
  repeat
    (cbn -[errno_line Z.lor to_size_t] in *;
     match goal with
     | H : context [match h ?e ?s with _ => _ end] |- _ =>
         destruct (h e s) as [[? ?]|] eqn:?
     | |- context [match h ?e ?s with _ => _ end] =>
         destruct (h e s) as [[? ?]|] eqn:?
     | H : context [let (_, _) := ?p in _] |- _ => destruct p
     | |- context [let (_, _) := ?p in _] => destruct p
     | H : context [if ?b then _ else _] |- _ => destruct b eqn:?
     | |- context [if ?b then _ else _] => destruct b eqn:?
     end);
  cbn -[errno_line Z.lor to_size_t] in *.

(** X1. Every library operation that returns hands back 0 or -1, whatever
    the system calls answer. *)
Theorem library_result_is_0_or_minus_1 :
  forall (S : Type) (h : handler S) (c : lib_call) (s s' : S) (r : RES_T),
    returned (exec h (result_of c) s) = Some (r, s') ->
    r = 0 \/ r = -1.
Proof.
  intros S h c s s' r H.
  destruct c; run_cases h; simplify_eq; auto.
Qed.

Lemma library_result_is_0_or_minus_1_witness :
  returned (exec os_handle (result_of (Send 7 (bytes_of "hi") 2 1)) one_queue_open) =
    Some (-1, put_stdout (errno_line EBADF) (set_errno EBADF one_queue_open)) /\
  (-1 = 0 \/ -1 = -1).
Proof.
  split; [reflexivity|].
  apply (library_result_is_0_or_minus_1 world os_handle
           (Send 7 (bytes_of "hi") 2 1) one_queue_open
           (put_stdout (errno_line EBADF) (set_errno EBADF one_queue_open)) (-1)).
  reflexivity.
Defined.

(** X2. A library operation that returns 0 has read no [errno] and printed
    nothing; one that returns -1 has issued its system call once, read
    [errno] once and printed one [Errno:] line with [printf], in this order,
    and nothing else. *)
Theorem library_result_tells_what_was_issued :
  forall (S : Type) (h : handler S) (c : lib_call) (s s' : S) (r : RES_T),
    returned (exec h (result_of c) s) = Some (r, s') ->
    (r = 0 ->
     forallb (fun e => negb (is_report e)) (issued (exec h (result_of c) s)) = true) /\
    (r = -1 ->
     exists e : Z,
       issued (exec h (result_of c) s) =
         [syscall_of c; get_errno; printf (errno_line e)]).
Proof.
  intros S h c s s' r H.
  destruct c; run_cases h; simplify_eq;
    (split; intros Hr; [try discriminate Hr; try reflexivity | try discriminate Hr; eauto]).
Qed.

Lemma library_result_tells_what_was_issued_witness :
  returned (exec os_handle (result_of (Close 7)) one_queue_open) =
    Some (-1, put_stdout (errno_line EBADF) (set_errno EBADF one_queue_open)) /\
  exists e : Z,
    issued (exec os_handle (result_of (Close 7)) one_queue_open) =
      [mq_close 7; get_errno; printf (errno_line e)].
Proof.
  split; [reflexivity|].
  apply (library_result_tells_what_was_issued world os_handle (Close 7)
           one_queue_open
           (put_stdout (errno_line EBADF) (set_errno EBADF one_queue_open)) (-1)).
  - reflexivity.
  - reflexivity.
Defined.

(** X3. No library operation ever writes to standard error: no run issues
    [fprintf(stderr, ...)] or [perror], whatever the system answers and
    whether or not the run returns. *)
Theorem library_never_writes_stderr :
  forall (S : Type) (h : handler S) (c : lib_call) (s : S),
    forallb (fun e => negb (is_stderr e)) (issued (exec h (result_of c) s)) = true.
Proof.
  intros S h c s. destruct c; run_cases h; reflexivity.
Qed.

(** ** [main], whatever the system answers *)

Section MainRuns.
Context {S : Type} (h : handler S).

Lemma main_calls_only (argv : list string) (s : S) :
  forallb main_call (issued (exec h (main argv) s)) = true.
Proof.
  destruct (Nat.eq_dec (length argv) 4%nat) as [Hlen | Hlen].
  - destruct argv as [|a [|b [|c [|d [|]]]]]; try discriminate Hlen.
    rewrite exec_main_4. run_cases h; reflexivity.
  - destruct (main_usage h argv s Hlen) as [_ ->]. reflexivity.
Qed.

End MainRuns.

(** X4. [main] issues no call outside its text: every [mq_open] is the
    non-creating form with [O_RDWR], every [mq_send] has priority 1, and no
    run contains [mq_close] (the descriptor is never closed), [mq_unlink],
    [mq_receive], [mq_getattr] or a [printf] to standard output. *)
Theorem main_never_closes_nor_prints_stdout :
  forall (S : Type) (h : handler S) (argv : list string) (s : S) (e : event),
    In e (issued (exec h (main argv) s)) ->
    main_call e = true /\
    (forall mqdes : Z, e <> mq_close mqdes) /\
    (forall text : string, e <> printf text) /\
    (forall (name : string) (oflag mode : Z) (attr : mq_attr),
        e <> mq_open name oflag (Some (mode, attr))).
Proof.
  intros S h argv s e Hin.
  pose proof (main_calls_only h argv s) as Hall.
  rewrite forallb_forall in Hall. specialize (Hall e Hin).
  split; [exact Hall|].
  repeat split; intros; intros ->; discriminate Hall.
Qed.

Lemma main_never_closes_nor_prints_stdout_witness :
  In (mq_send 0 (bytes_of "hi") 2 1)
     (issued (exec os_handle (main ["mqsend"; "/q"; "hi"; "7"]) one_queue)) /\
  main_call (mq_send 0 (bytes_of "hi") 2 1) = true.
Proof.
  assert (Hin : In (mq_send 0 (bytes_of "hi") 2 1)
                  (issued (exec os_handle (main ["mqsend"; "/q"; "hi"; "7"]) one_queue)))
    by (right; left; reflexivity).
  split; [exact Hin|].
  exact (proj1 (main_never_closes_nor_prints_stdout world os_handle
                  ["mqsend"; "/q"; "hi"; "7"] one_queue _ Hin)).
Defined.

(** X5. [main] returns 0 or 1.  It returns 0 only when called with exactly
    three arguments, after one [mq_open] that gave a descriptor and one
    [mq_send] of the message text that answered 0, and then it has printed
    nothing. *)
Theorem main_exit_status :
  forall (S : Type) (h : handler S) (argv : list string) (s s' : S) (r : Z),
    returned (exec h (main argv) s) = Some (r, s') ->
    (r = 0 \/ r = 1) /\
    (r = 0 ->
     length argv = 4%nat /\
     exists (mqd : Z) (s1 : S),
       h (mq_open (nth 1 argv "") O_RDWR None) s = Some (mqd, s1) /\
       0 <= mqd /\
       h (mq_send mqd (bytes_of (nth 2 argv "")) (strlen (nth 2 argv "")) 1) s1 =
         Some (0, s') /\
       issued (exec h (main argv) s) =
         [mq_open (nth 1 argv "") O_RDWR None;
          mq_send mqd (bytes_of (nth 2 argv "")) (strlen (nth 2 argv "")) 1]).
Proof.
  intros S h argv s s' r H.
  destruct (Nat.eq_dec (length argv) 4%nat) as [Hlen | Hlen].
  - destruct argv as [|a [|b [|c [|d [|]]]]]; try discriminate Hlen.
    rewrite exec_main_4 in H |- *.
    change (nth 1 [a; b; c; d] "") with b.
    change (nth 2 [a; b; c; d] "") with c.
    destruct (h (mq_open b O_RDWR None) s) as [[mqd s1]|] eqn:Hopen;
      [|discriminate H].
    destruct (mqd <? 0) eqn:Hneg.
    + run_cases h; simplify_eq. split; [auto | discriminate].
    + cbv zeta in H |- *.
      destruct (h (mq_send mqd (bytes_of c) (strlen c) 1) s1) as [[sr s2]|] eqn:Hsend;
        [|discriminate H].
      destruct (sr =? 0) eqn:Hsr.
      * cbn in H. simplify_eq. apply Z.eqb_eq in Hsr. subst sr.
        apply Z.ltb_ge in Hneg. split; [auto|]. intros _.
        split; [reflexivity|]. exists mqd, s1. auto.
      * run_cases h; simplify_eq. split; [auto | discriminate].
  - destruct (main_usage h argv s Hlen) as [_ E]. rewrite E in H.
    run_cases h; simplify_eq. split; [auto | discriminate].
Qed.

Lemma main_exit_status_witness :
  exists w' : world,
    returned (exec os_handle (main ["mqsend"; "/q"; "hi"; "7"]) one_queue) =
      Some (0, w') /\
    issued (exec os_handle (main ["mqsend"; "/q"; "hi"; "7"]) one_queue) =
      [mq_open "/q" O_RDWR None; mq_send 0 (bytes_of "hi") 2 1].
Proof.
  eexists. split; [reflexivity|].
  pose proof (main_exit_status world os_handle ["mqsend"; "/q"; "hi"; "7"]
                one_queue _ 0 eq_refl) as [_ H].
  destruct (H eq_refl) as (_ & mqd & s1 & Hopen & _ & _ & Hiss).
  cbn in Hopen. injection Hopen as <- _. exact Hiss.
Defined.

(** ** Opening, whatever the system answers *)

(** X6. [posixmq_open_existing] does not look at what [mq_getattr] returns:
    once [mq_open] gave a descriptor, a failing [mq_getattr] still ends in
    result 0, nothing printed, and the two sizes taken from whatever the
    attribute block holds. *)
Theorem open_existing_ignores_getattr_failure :
  forall (S : Type) (h : handler S) (s s1 s2 : S) (name : string)
         (id0 size0 depth0 fd r : Z) (attrs : mq_attr),
    h (mq_open name O_RDWR None) s = Some (fd, s1) ->
    0 <= fd ->
    h (mq_getattr fd) s1 = Some ((r, attrs), s2) ->
    r < 0 ->
    exec h (posixmq_open_existing name id0 size0 depth0) s =
      Outcome [mq_open name O_RDWR None; mq_getattr fd]
        (Some ((0, (fd, to_size_t (mq_msgsize attrs), to_size_t (mq_maxmsg attrs))),
               s2)).
Proof.
  intros S h s s1 s2 name id0 size0 depth0 fd r attrs Hopen Hfd Hattr _.
  exact (exec_posixmq_open_existing_ok h name id0 size0 depth0 s s1 s2 fd r attrs
           Hopen Hfd Hattr).
Qed.

Lemma open_existing_ignores_getattr_failure_witness :
  exec only_open_works (posixmq_open_existing "/q" (-1) 0 0) tt =
    Outcome [mq_open "/q" O_RDWR None; mq_getattr 3] (Some ((0, (3, 9, 7)), tt)).
Proof.
  apply (open_existing_ignores_getattr_failure unit only_open_works tt tt tt "/q"
           (-1) 0 0 3 (-1) (MqAttr 0 7 9 0)).
  - reflexivity.
  - lia.
  - reflexivity.
  - lia.
Defined.

(** X7. When [mq_open] fails, both open operations return -1 and leave every
    output where it was: [posixmq_open_create] keeps [*mq_id_out],
    [posixmq_open_existing] keeps [*mq_id_out] and both sizes, and does not
    call [mq_getattr]. *)
Theorem failed_open_leaves_outputs :
  forall (S : Type) (h : handler S) (s s1 s' : S) (name : string) (r res : Z),
    r < 0 ->
    (forall (size depth id0 id' : Z),
        h (mq_open name (Z.lor O_CREAT O_RDWR)
             (Some (MODE_0644, MqAttr 0 (to_long depth) (to_long size) 0))) s =
          Some (r, s1) ->
        returned (exec h (posixmq_open_create name size depth id0) s) =
          Some ((res, id'), s') ->
        res = -1 /\ id' = id0) /\
    (forall (id0 size0 depth0 : Z) (outs : Z * Z * Z),
        h (mq_open name O_RDWR None) s = Some (r, s1) ->
        returned (exec h (posixmq_open_existing name id0 size0 depth0) s) =
          Some ((res, outs), s') ->
        res = -1 /\ outs = (id0, size0, depth0) /\
        forallb (fun e => negb (is_getattr e))
          (issued (exec h (posixmq_open_existing name id0 size0 depth0) s)) = true).
Proof.
  intros S h s s1 s' name r res Hr. apply Z.ltb_lt in Hr. split.
  - intros size depth id0 id' Hopen. unfold posixmq_open_create.
    cbn -[errno_line Z.lor]. rewrite Hopen. cbn -[errno_line]. rewrite Hr.
    intros H. run_cases h; simplify_eq. auto.
  - intros id0 size0 depth0 outs Hopen. unfold posixmq_open_existing.
    cbn -[errno_line]. rewrite Hopen. cbn -[errno_line]. rewrite Hr.
    intros H. run_cases h; simplify_eq. auto.
Qed.

Lemma failed_open_leaves_outputs_witness :
  returned (exec os_handle (posixmq_open_create "bad" 8 10 (-7)) boot) =
    Some ((-1, -7), put_stdout (errno_line EINVAL) (set_errno EINVAL boot)) /\
  returned (exec os_handle (posixmq_open_existing "/nope" (-7) 11 12) boot) =
    Some ((-1, (-7, 11, 12)), put_stdout (errno_line ENOENT) (set_errno ENOENT boot)) /\
  (-1 = -1 /\ -7 = -7) /\
  (-1 = -1 /\ (-7, 11, 12) = (-7, 11, 12) /\
   forallb (fun e => negb (is_getattr e))
     (issued (exec os_handle (posixmq_open_existing "/nope" (-7) 11 12) boot)) = true).
Proof.
  split; [reflexivity|]. split; [reflexivity|]. split.
  - refine (proj1 (failed_open_leaves_outputs world os_handle boot
                     (set_errno EINVAL boot)
                     (put_stdout (errno_line EINVAL) (set_errno EINVAL boot))
                     "bad" (-1) (-1) _) 8 10 (-7) (-7) _ _);
      [lia | reflexivity | reflexivity].
  - refine (proj2 (failed_open_leaves_outputs world os_handle boot
                     (set_errno ENOENT boot)
                     (put_stdout (errno_line ENOENT) (set_errno ENOENT boot))
                     "/nope" (-1) (-1) _) (-7) 11 12 (-7, 11, 12) _ _);
      [lia | reflexivity | reflexivity].
Defined.

(** ** [main] on the modelled system *)

Lemma length_bytes_of (s : string) : length (bytes_of s) = String.length s.
Proof.
  unfold bytes_of, list_byte_of_string. rewrite length_map.
  induction s as [|c s IH]; [reflexivity | cbn; now rewrite IH].
Qed.

Lemma take_bytes_of (s : string) : take (Z.to_nat (strlen s)) (bytes_of s) = bytes_of s.
Proof.
  unfold strlen. rewrite Nat2Z.id, <- length_bytes_of. apply firstn_all.
Qed.

Lemma open_fd_set_fds (q : nat) (oflag : Z) (w w1 : world) (fd : Z) :
  open_fd q oflag w = (fd, w1) -> exists fds, w1 = set_fds fds w.
Proof.
  unfold open_fd. destruct (alloc_fd (w_fds w) (MqDesc q oflag)) as [i fds].
  intros H. inversion H. eauto.
Qed.

(** [mq_open] without [O_CREAT] on a well-formed, bound name takes the lowest
    free descriptor. *)
Lemma os_open_bound (name : string) (w : world) (q : nat) :
  name_error name = None ->
  w_names w !! name = Some q ->
  os_mq_open name O_RDWR None w = Some (open_fd q O_RDWR w).
Proof.
  intros Hname Hq. unfold os_mq_open. rewrite Hname, Hq. reflexivity.
Qed.

(** [mq_send] on a writable descriptor, with a message that fits and a queue
    that has room. *)
Lemma os_send_run (w : world) (mq : Z) (d : mqdesc) (q : mqueue)
    (msg : list byte) (size prio : Z) :
  fd_lookup w mq = Some d ->
  can_write (d_oflag d) = true ->
  queue_of w d = Some q ->
  prio < MQ_PRIO_MAX ->
  size <= q_msgsize q ->
  Z.of_nat (length (q_msgs q)) < q_maxmsg q ->
  os_mq_send mq msg size prio w =
    Some (0, set_queues
               (<[d_queue d :=
                    set_msgs (enqueue (Message prio (take (Z.to_nat size) msg))
                                (q_msgs q)) q]> (w_queues w)) w).
Proof.
  intros Hd Hw Hq Hprio Hfit Hroom. unfold os_mq_send.
  destruct (MQ_PRIO_MAX <=? prio) eqn:E1; [apply Z.leb_le in E1; lia|].
  rewrite Hd, Hw, Hq. cbn.
  destruct (q_msgsize q <? size) eqn:E2; [apply Z.ltb_lt in E2; lia|].
  destruct (q_maxmsg q <=? Z.of_nat (length (q_msgs q))) eqn:E3;
    [apply Z.leb_le in E3; lia|].
  reflexivity.
Qed.

(** X8. Run on an existing queue that has room, with a message text no
    longer than the queue's message size, [main] returns 0 after one
    [mq_open] and one [mq_send]; the queue then holds the bytes of the text
    (no terminator) at priority 1 behind the waiting messages of priority 1
    or more; nothing is printed, [errno] and the name space are untouched,
    and the descriptor is still open when [main] returns. *)
Theorem main_delivers_message :
  forall (w : world) (prog name msg prio : string) (q : nat) (mq : mqueue),
    name_error name = None ->
    w_names w !! name = Some q ->
    w_queues w !! q = Some mq ->
    strlen msg <= q_msgsize mq ->
    Z.of_nat (length (q_msgs mq)) < q_maxmsg mq ->
    exists (fd : Z) (w' : world),
      exec os_handle (main [prog; name; msg; prio]) w =
        Outcome [mq_open name O_RDWR None;
                 mq_send fd (bytes_of msg) (strlen msg) 1] (Some (0, w')) /\
      w_queues w' =
        <[q := set_msgs (enqueue (Message 1 (bytes_of msg)) (q_msgs mq)) mq]>
          (w_queues w) /\
      w_stdout w' = w_stdout w /\ w_stderr w' = w_stderr w /\
      w_errno w' = w_errno w /\ w_names w' = w_names w /\
      fd_lookup w' fd = Some (MqDesc q O_RDWR).
Proof.
  intros w prog name msg prio q mq Hname Hq Hmq Hfit Hroom.
  destruct (open_fd q O_RDWR w) as [fd w1] eqn:Hfd.
  destruct (open_fd_set_fds _ _ _ _ _ Hfd) as [fds Hw1].
  destruct (open_fd_spec _ _ _ _ _ Hfd) as (Hpos & Hlook & _ & Hqs).
  assert (Hsend :
    os_handle (mq_send fd (bytes_of msg) (strlen msg) 1) w1 =
      Some (0, set_queues
                 (<[q := set_msgs (enqueue (Message 1 (bytes_of msg)) (q_msgs mq)) mq]>
                    (w_queues w)) w1)).
  { cbn [os_handle].
    rewrite (os_send_run w1 fd (MqDesc q O_RDWR) mq (bytes_of msg) (strlen msg) 1
               Hlook eq_refl);
      [ rewrite take_bytes_of, Hqs; reflexivity
      | unfold queue_of; rewrite Hqs; exact Hmq
      | reflexivity | exact Hfit | exact Hroom ]. }
  exists fd. eexists. split.
  - rewrite exec_main_4. cbn [os_handle].
    rewrite (os_open_bound _ _ _ Hname Hq), Hfd.
    apply Z.ltb_ge in Hpos. rewrite Hpos. cbv zeta.
    cbn [os_handle] in Hsend. rewrite Hsend. reflexivity.
  - subst w1. cbn. unfold fd_lookup in *. cbn in *. auto 10.
Qed.

Lemma main_delivers_message_witness :
  exists (fd : Z) (w' : world),
    exec os_handle (main ["mqsend"; "/q"; ""; "x"]) one_message =
      Outcome [mq_open "/q" O_RDWR None; mq_send fd (bytes_of "") (strlen "") 1]
        (Some (0, w')) /\
    w_queues w' =
      [MQueue 10 8 [Message 5 ["a"; "b"; "c"]%byte; Message 1 []]] /\
    w_stdout w' = [] /\ w_stderr w' = [] /\
    w_errno w' = 0 /\ w_names w' = w_names one_message /\
    fd_lookup w' fd = Some (MqDesc 0 O_RDWR).
Proof.
  apply (main_delivers_message one_message "mqsend" "/q" "" "x" 0%nat
           (MQueue 10 8 [Message 5 ["a"; "b"; "c"]%byte])).
  - reflexivity.
  - reflexivity.
  - reflexivity.
  - now vm_compute.
  - now vm_compute.
Defined.

(** X9. Run on an existing queue with a message text longer than the
    queue's message size, [main] opens the queue, gets [EMSGSIZE] from
    [mq_send], writes [Message send failed with error: 90] to standard error
    and returns 1; no message is queued and the descriptor stays open. *)
Theorem main_message_too_long :
  forall (w : world) (prog name msg prio : string) (q : nat) (mq : mqueue),
    name_error name = None ->
    w_names w !! name = Some q ->
    w_queues w !! q = Some mq ->
    q_msgsize mq < strlen msg ->
    exists (fd : Z) (w' : world),
      exec os_handle (main [prog; name; msg; prio]) w =
        Outcome [mq_open name O_RDWR None;
                 mq_send fd (bytes_of msg) (strlen msg) 1;
                 get_errno;
                 fprintf_stderr (send_failed_line EMSGSIZE)] (Some (1, w')) /\
      w_queues w' = w_queues w /\
      w_stdout w' = w_stdout w /\
      w_stderr w' = (w_stderr w ++ [send_failed_line EMSGSIZE])%list /\
      w_errno w' = EMSGSIZE /\
      fd_lookup w' fd = Some (MqDesc q O_RDWR).
Proof.
  intros w prog name msg prio q mq Hname Hq Hmq Hlong.
  destruct (open_fd q O_RDWR w) as [fd w1] eqn:Hfd.
  destruct (open_fd_set_fds _ _ _ _ _ Hfd) as [fds Hw1].
  destruct (open_fd_spec _ _ _ _ _ Hfd) as (Hpos & Hlook & _ & Hqs).
  assert (Hsend :
    os_mq_send fd (bytes_of msg) (strlen msg) 1 w1 = Some (-1, set_errno EMSGSIZE w1)).
  { unfold os_mq_send. change (MQ_PRIO_MAX <=? 1) with false. cbv iota.
    rewrite Hlook. unfold queue_of. cbn. rewrite Hqs, Hmq.
    apply Z.ltb_lt in Hlong. rewrite Hlong. reflexivity. }
  exists fd. eexists. split.
  - rewrite exec_main_4. cbn [os_handle].
    rewrite (os_open_bound _ _ _ Hname Hq), Hfd.
    apply Z.ltb_ge in Hpos. rewrite Hpos. cbv zeta.
    rewrite Hsend. reflexivity.
  - subst w1. cbn. unfold fd_lookup in *. cbn in *. auto 10.
Qed.

Lemma main_message_too_long_witness :
  exists (fd : Z) (w' : world),
    exec os_handle (main ["mqsend"; "/q"; "123456789"; "1"]) one_queue =
      Outcome [mq_open "/q" O_RDWR None;
               mq_send fd (bytes_of "123456789") (strlen "123456789") 1;
               get_errno;
               fprintf_stderr (send_failed_line EMSGSIZE)] (Some (1, w')) /\
    w_queues w' = w_queues one_queue /\
    w_stdout w' = w_stdout one_queue /\
    w_stderr w' = (w_stderr one_queue ++ [send_failed_line EMSGSIZE])%list /\
    w_errno w' = EMSGSIZE /\
    fd_lookup w' fd = Some (MqDesc 0 O_RDWR).
Proof.
  apply (main_message_too_long one_queue "mqsend" "/q" "123456789" "1" 0%nat
           (MQueue 10 8 [])).
  - reflexivity.
  - reflexivity.
  - reflexivity.
  - now vm_compute.
Defined.

(** X10. [main] opens the queue without [O_NONBLOCK]: run on an existing
    queue that is full, with a message that would fit, it issues [mq_open]
    and [mq_send] and never returns. *)
Theorem main_blocks_on_full_queue :
  forall (w : world) (prog name msg prio : string) (q : nat) (mq : mqueue),
    name_error name = None ->
    w_names w !! name = Some q ->
    w_queues w !! q = Some mq ->
    strlen msg <= q_msgsize mq ->
    q_maxmsg mq <= Z.of_nat (length (q_msgs mq)) ->
    exists fd : Z,
      exec os_handle (main [prog; name; msg; prio]) w =
        Outcome [mq_open name O_RDWR None;
                 mq_send fd (bytes_of msg) (strlen msg) 1] None.
Proof.
  intros w prog name msg prio q mq Hname Hq Hmq Hfit Hfull.
  destruct (open_fd q O_RDWR w) as [fd w1] eqn:Hfd.
  destruct (open_fd_spec _ _ _ _ _ Hfd) as (Hpos & Hlook & _ & Hqs).
  exists fd. rewrite exec_main_4. cbn [os_handle].
  rewrite (os_open_bound _ _ _ Hname Hq), Hfd.
  apply Z.ltb_ge in Hpos. rewrite Hpos. cbv zeta.
  unfold os_mq_send. change (MQ_PRIO_MAX <=? 1) with false. cbv iota.
  rewrite Hlook. unfold queue_of. cbn. rewrite Hqs, Hmq.
  destruct (q_msgsize mq <? strlen msg) eqn:E; [apply Z.ltb_lt in E; lia|].
  apply Z.leb_le in Hfull. rewrite Hfull. reflexivity.
Qed.

Lemma main_blocks_on_full_queue_witness :
  exists fd : Z,
    exec os_handle (main ["mqsend"; "/q"; "hi"; "1"]) full_queue =
      Outcome [mq_open "/q" O_RDWR None;
               mq_send fd (bytes_of "hi") (strlen "hi") 1] None.
Proof.
  apply (main_blocks_on_full_queue full_queue "mqsend" "/q" "hi" "1" 0%nat
           (MQueue 1 8 [Message 5 ["a"; "b"; "c"]%byte])).
  - reflexivity.
  - reflexivity.
  - reflexivity.
  - now vm_compute.
  - now vm_compute.
Defined.

(** ** Close and unlink on the modelled system *)

Lemma fd_lookup_Some (w : world) (mq : Z) (d : mqdesc) :
  fd_lookup w mq = Some d ->
  0 <= mq /\ w_fds w !! Z.to_nat mq = Some (Some d).
Proof.
  unfold fd_lookup. destruct (mq <? 0) eqn:E; [discriminate|].
  apply Z.ltb_ge in E. intros H. split; [exact E|].
  destruct (w_fds w !! Z.to_nat mq) as [[d'|]|]; cbn in H; congruence.
Qed.

(** X11. [posixmq_close] on an open descriptor returns 0 with nothing
    printed and frees exactly that descriptor; afterwards a second
    [posixmq_close] and any [posixmq_send] on it return -1 with [EBADF]. *)
Theorem close_invalidates_handle :
  forall (w : world) (mq : Z) (d : mqdesc),
    fd_lookup w mq = Some d ->
    exists w1 : world,
      exec os_handle (posixmq_close mq) w = Outcome [mq_close mq] (Some (0, w1)) /\
      fd_lookup w1 mq = None /\
      (forall mq' : Z, 0 <= mq' -> mq' <> mq -> fd_lookup w1 mq' = fd_lookup w mq') /\
      w_queues w1 = w_queues w /\ w_names w1 = w_names w /\
      exec os_handle (posixmq_close mq) w1 =
        Outcome [mq_close mq; get_errno; printf (errno_line EBADF)]
          (Some (-1, put_stdout (errno_line EBADF) (set_errno EBADF w1))) /\
      (forall (msg : list byte) (size prio : Z),
          prio < MQ_PRIO_MAX ->
          exec os_handle (posixmq_send mq msg size prio) w1 =
            Outcome [mq_send mq msg size prio; get_errno; printf (errno_line EBADF)]
              (Some (-1, put_stdout (errno_line EBADF) (set_errno EBADF w1)))).
Proof.
  intros w mq d Hd.
  destruct (fd_lookup_Some w mq d Hd) as [Hpos Hfds].
  pose proof (lookup_lt_Some _ _ _ Hfds) as Hlt.
  exists (set_fds (<[Z.to_nat mq := None]> (w_fds w)) w).
  assert (Hgone :
    fd_lookup (set_fds (<[Z.to_nat mq := None]> (w_fds w)) w) mq = None).
  { unfold fd_lookup. cbn. destruct (mq <? 0); [reflexivity|].
    rewrite list_lookup_insert_eq by exact Hlt. reflexivity. }
  split.
  { unfold posixmq_close. cbn -[errno_line]. unfold os_mq_close. rewrite Hd.
    reflexivity. }
  split; [exact Hgone|].
  split.
  { intros mq' Hpos' Hne. unfold fd_lookup. cbn.
    destruct (mq' <? 0); [reflexivity|].
    rewrite list_lookup_insert_ne by lia. reflexivity. }
  split; [reflexivity|]. split; [reflexivity|].
  split.
  - unfold posixmq_close. cbn -[errno_line]. unfold os_mq_close. rewrite Hgone.
    reflexivity.
  - intros msg size prio Hprio. unfold posixmq_send. cbn -[errno_line].
    unfold os_mq_send.
    destruct (MQ_PRIO_MAX <=? prio) eqn:E; [apply Z.leb_le in E; lia|].
    rewrite Hgone. reflexivity.
Qed.

Lemma close_invalidates_handle_witness :
  exists w1 : world,
    exec os_handle (posixmq_close 0) one_message = Outcome [mq_close 0] (Some (0, w1)) /\
    fd_lookup w1 0 = None /\
    (forall mq' : Z, 0 <= mq' -> mq' <> 0 -> fd_lookup w1 mq' = fd_lookup one_message mq') /\
    w_queues w1 = w_queues one_message /\ w_names w1 = w_names one_message /\
    exec os_handle (posixmq_close 0) w1 =
      Outcome [mq_close 0; get_errno; printf (errno_line EBADF)]
        (Some (-1, put_stdout (errno_line EBADF) (set_errno EBADF w1))) /\
    (forall (msg : list byte) (size prio : Z),
        prio < MQ_PRIO_MAX ->
        exec os_handle (posixmq_send 0 msg size prio) w1 =
          Outcome [mq_send 0 msg size prio; get_errno; printf (errno_line EBADF)]
            (Some (-1, put_stdout (errno_line EBADF) (set_errno EBADF w1)))).
Proof.
  apply (close_invalidates_handle one_message 0 (MqDesc 0 O_RDWR)).
  reflexivity.
Defined.



(** X13. [posixmq_unlink] of a bound name returns 0 with nothing printed and
    removes the name only: descriptors and queue contents stay as they are.
    Afterwards [posixmq_open_existing] on the name returns -1 ([ENOENT]) with
    its outputs untouched, and a second [posixmq_unlink] returns -1. *)
Theorem unlink_then_open_existing_fails :
  forall (w : world) (name : string) (q : nat) (id0 size0 depth0 : Z),
    name_error name = None ->
    w_names w !! name = Some q ->
    exists w1 : world,
      exec os_handle (posixmq_unlink name) w = Outcome [mq_unlink name] (Some (0, w1)) /\
      w_names w1 = delete name (w_names w) /\
      w_fds w1 = w_fds w /\ w_queues w1 = w_queues w /\
      exec os_handle (posixmq_open_existing name id0 size0 depth0) w1 =
        Outcome [mq_open name O_RDWR None; get_errno; printf (errno_line ENOENT)]
          (Some ((-1, (id0, size0, depth0)),
                 put_stdout (errno_line ENOENT) (set_errno ENOENT w1))) /\
      returned (exec os_handle (posixmq_unlink name) w1) =
        Some (-1, put_stdout (errno_line ENOENT) (set_errno ENOENT w1)).
Proof.
  intros w name q id0 size0 depth0 Hname Hq.
  exists (set_names (delete name (w_names w)) w).
  split.
  { unfold posixmq_unlink. cbn -[errno_line]. unfold os_mq_unlink.
    rewrite Hname, Hq. reflexivity. }
  split; [reflexivity|]. split; [reflexivity|]. split; [reflexivity|].
  split.
  - unfold posixmq_open_existing. cbn -[errno_line]. unfold os_mq_open.
    rewrite Hname. cbn -[errno_line]. rewrite lookup_delete_eq. reflexivity.
  - unfold posixmq_unlink. cbn -[errno_line]. unfold os_mq_unlink.
    rewrite Hname. cbn -[errno_line]. rewrite lookup_delete_eq. reflexivity.
Qed.

Lemma unlink_then_open_existing_fails_witness :
  exists w1 : world,
    exec os_handle (posixmq_unlink "/q") one_message = Outcome [mq_unlink "/q"] (Some (0, w1)) /\
    w_names w1 = delete "/q" (w_names one_message) /\
    w_fds w1 = w_fds one_message /\ w_queues w1 = w_queues one_message /\
    exec os_handle (posixmq_open_existing "/q" (-1) 0 0) w1 =
      Outcome [mq_open "/q" O_RDWR None; get_errno; printf (errno_line ENOENT)]
        (Some ((-1, (-1, 0, 0)),
               put_stdout (errno_line ENOENT) (set_errno ENOENT w1))) /\
    returned (exec os_handle (posixmq_unlink "/q") w1) =
      Some (-1, put_stdout (errno_line ENOENT) (set_errno ENOENT w1)).
Proof.
  apply (unlink_then_open_existing_fails one_message "/q" 0%nat (-1) 0 0).
  - reflexivity.
  - reflexivity.
Defined.

(** ** Creating a queue on the modelled system *)







(** ** Blocking and ordering on the modelled system *)

(** [mq_receive] on a readable descriptor whose queue has a message waiting,
    with enough capacity. *)
Lemma os_recv_run (w : world) (mq : Z) (d : mqdesc) (q : mqueue)
    (m : message) (rest : list message) (buf : list byte) (cap prio0 : Z) :
  fd_lookup w mq = Some d ->
  can_read (d_oflag d) = true ->
  queue_of w d = Some q ->
  q_msgs q = m :: rest ->
  q_msgsize q <= cap ->
  os_mq_receive mq buf cap prio0 w =
    Some (Z.of_nat (length (m_data m)), write_buf (m_data m) buf, m_prio m,
          set_queues (<[d_queue d := set_msgs rest q]> (w_queues w)) w).
Proof.
  intros Hd Hr Hq Hm Hcap. unfold os_mq_receive. rewrite Hd, Hr, Hq, Hm. cbn.
  destruct (cap <? q_msgsize q) eqn:E; [apply Z.ltb_lt in E; lia|].
  reflexivity.
Qed.

(** X16. [posixmq_open_existing] on a well-formed, bound name returns 0 with
    the queue's two attributes and a descriptor that blocks: on it, a
    [posixmq_recv] with enough capacity never returns while the queue is
    empty, and a [posixmq_send] of a message that fits never returns while
    the queue is full. *)
Theorem open_existing_handle_blocks :
  forall (w : world) (name : string) (q : nat) (mq : mqueue) (id0 size0 depth0 : Z),
    name_error name = None ->
    w_names w !! name = Some q ->
    w_queues w !! q = Some mq ->
    exists (fd : Z) (w1 : world),
      returned (exec os_handle (posixmq_open_existing name id0 size0 depth0) w) =
        Some ((0, (fd, to_size_t (q_msgsize mq), to_size_t (q_maxmsg mq))), w1) /\
      (q_msgs mq = [] ->
       forall (buf : list byte) (cap prio0 : Z),
         q_msgsize mq <= cap ->
         exec os_handle (posixmq_recv fd buf cap prio0) w1 =
           Outcome [mq_receive fd buf cap prio0] None) /\
      (q_maxmsg mq <= Z.of_nat (length (q_msgs mq)) ->
       forall (msg : list byte) (size prio : Z),
         prio < MQ_PRIO_MAX ->
         size <= q_msgsize mq ->
         exec os_handle (posixmq_send fd msg size prio) w1 =
           Outcome [mq_send fd msg size prio] None).
Proof.
  intros w name q mq id0 size0 depth0 Hname Hq Hmq.
  destruct (open_fd q O_RDWR w) as [fd w1] eqn:Hfd.
  destruct (open_fd_spec _ _ _ _ _ Hfd) as (Hpos & Hlook & _ & Hqs).
  assert (Hqueue : queue_of w1 (MqDesc q O_RDWR) = Some mq).
  { unfold queue_of. cbn. rewrite Hqs. exact Hmq. }
  exists fd, w1. split.
  - rewrite (exec_posixmq_open_existing_ok os_handle name id0 size0 depth0
               w w1 w1 fd 0
               (MqAttr (Z.land O_RDWR O_NONBLOCK) (q_maxmsg mq) (q_msgsize mq)
                  (Z.of_nat (length (q_msgs mq))))).
    + reflexivity.
    + cbn [os_handle]. rewrite (os_open_bound _ _ _ Hname Hq). exact (f_equal Some Hfd).
    + exact Hpos.
    + cbn [os_handle]. unfold os_mq_getattr. rewrite Hlook, Hqueue. reflexivity.
  - split.
    + intros Hempty buf cap prio0 Hcap. rewrite exec_posixmq_recv.
      cbn [os_handle]. unfold os_mq_receive. rewrite Hlook, Hqueue, Hempty. cbn.
      destruct (cap <? q_msgsize mq) eqn:E; [apply Z.ltb_lt in E; lia|].
      reflexivity.
    + intros Hfull msg size prio Hprio Hfit. unfold posixmq_send.
      cbn -[errno_line]. unfold os_mq_send.
      destruct (MQ_PRIO_MAX <=? prio) eqn:E1; [apply Z.leb_le in E1; lia|].
      rewrite Hlook, Hqueue. cbn.
      destruct (q_msgsize mq <? size) eqn:E2; [apply Z.ltb_lt in E2; lia|].
      apply Z.leb_le in Hfull. rewrite Hfull. reflexivity.
Qed.

Lemma open_existing_handle_blocks_witness :
  exists (fd : Z) (w1 : world),
    returned (exec os_handle (posixmq_open_existing "/q" (-1) 0 0) full_queue) =
      Some ((0, (fd, to_size_t 8, to_size_t 1)), w1) /\
    (forall (msg : list byte) (size prio : Z),
        prio < MQ_PRIO_MAX ->
        size <= 8 ->
        exec os_handle (posixmq_send fd msg size prio) w1 =
          Outcome [mq_send fd msg size prio] None).
Proof.
  destruct (open_existing_handle_blocks full_queue "/q" 0%nat
              (MQueue 1 8 [Message 5 ["a"; "b"; "c"]%byte]) (-1) 0 0
              eq_refl eq_refl eq_refl) as (fd & w1 & Hopen & _ & Hsend).
  exists fd, w1. split; [exact Hopen|].
  apply Hsend. now vm_compute.
Defined.

Lemma exec_os_send_ok (w : world) (mq : Z) (d : mqdesc) (q : mqueue)
    (msg : list byte) (size prio : Z) :
  fd_lookup w mq = Some d ->
  can_write (d_oflag d) = true ->
  queue_of w d = Some q ->
  prio < MQ_PRIO_MAX ->
  size <= q_msgsize q ->
  Z.of_nat (length (q_msgs q)) < q_maxmsg q ->
  exec os_handle (posixmq_send mq msg size prio) w =
    Outcome [mq_send mq msg size prio]
      (Some (0, set_queues
                  (<[d_queue d :=
                       set_msgs (enqueue (Message prio (take (Z.to_nat size) msg))
                                   (q_msgs q)) q]> (w_queues w)) w)).
Proof.
  intros Hd Hw Hq Hprio Hfit Hroom. unfold posixmq_send. cbn -[errno_line].
  rewrite (os_send_run w mq d q msg size prio Hd Hw Hq Hprio Hfit Hroom).
  reflexivity.
Qed.

Lemma exec_os_recv_ok (w : world) (mq : Z) (d : mqdesc) (q : mqueue)
    (m : message) (rest : list message) (buf : list byte) (cap prio0 : Z) :
  fd_lookup w mq = Some d ->
  can_read (d_oflag d) = true ->
  queue_of w d = Some q ->
  q_msgs q = m :: rest ->
  q_msgsize q <= cap ->
  is_size_t (Z.of_nat (length (m_data m))) ->
  exec os_handle (posixmq_recv mq buf cap prio0) w =
    Outcome [mq_receive mq buf cap prio0]
      (Some ((0, (write_buf (m_data m) buf, Z.of_nat (length (m_data m)), m_prio m)),
             set_queues (<[d_queue d := set_msgs rest q]> (w_queues w)) w)).
Proof.
  intros Hd Hr Hq Hm Hcap Hlen. rewrite exec_posixmq_recv. cbn [os_handle].
  rewrite (os_recv_run w mq d q m rest buf cap prio0 Hd Hr Hq Hm Hcap).
  rewrite to_size_t_id by exact Hlen. reflexivity.
Qed.

Lemma queue_of_set_queues (w : world) (d : mqdesc) (q q' : mqueue)
    (qs : list mqueue) :
  queue_of w d = Some q ->
  length qs = length (w_queues w) ->
  queue_of (set_queues (<[d_queue d := q']> qs) w) d = Some q'.
Proof.
  unfold queue_of. intros Hq Hlen. cbn.
  apply list_lookup_insert_eq. rewrite Hlen. eapply lookup_lt_Some. exact Hq.
Qed.

(** X17. Two [posixmq_send]s into an empty queue followed by two
    [posixmq_recv]s: all four return 0; the first receive gives the message
    sent with the higher priority, or the one sent first when the
    priorities are equal, the second receive gives the other one, each with
    its own byte count and priority; the queue is empty again. *)
Theorem two_messages_by_priority :
  forall (w : world) (mq : Z) (d : mqdesc) (q : mqueue)
         (m1 m2 buf : list byte) (s1 s2 p1 p2 cap pa pb : Z),
    fd_lookup w mq = Some d ->
    can_read (d_oflag d) = true ->
    can_write (d_oflag d) = true ->
    queue_of w d = Some q ->
    q_msgs q = [] ->
    2 <= q_maxmsg q ->
    is_size_t s1 -> s1 <= Z.of_nat (length m1) -> s1 <= q_msgsize q ->
    is_size_t s2 -> s2 <= Z.of_nat (length m2) -> s2 <= q_msgsize q ->
    p1 < MQ_PRIO_MAX -> p2 < MQ_PRIO_MAX ->
    q_msgsize q <= cap ->
    let got1 := (0, (write_buf (take (Z.to_nat s1) m1) buf, s1, p1)) in
    let got2 := (0, (write_buf (take (Z.to_nat s2) m2) buf, s2, p2)) in
    exists w' : world,
      returned
        (exec os_handle
           (r1 ← posixmq_send mq m1 s1 p1;
            r2 ← posixmq_send mq m2 s2 p2;
            a ← posixmq_recv mq buf cap pa;
            b ← posixmq_recv mq buf cap pb;
            Ret (r1, r2, a, b)) w) =
        Some ((0, 0,
               (if p1 <? p2 then got2 else got1),
               (if p1 <? p2 then got1 else got2)), w') /\
      queue_of w' d = Some q.
Proof.
  intros w mq d q m1 m2 buf s1 s2 p1 p2 cap pa pb
    Hd Hr Hw Hq Hempty Hmax Hs1 Hl1 Hf1 Hs2 Hl2 Hf2 Hp1 Hp2 Hcap got1 got2.
  assert (Hlen1 : Z.of_nat (length (take (Z.to_nat s1) m1)) = s1).
  { rewrite length_take. destruct Hs1. lia. }
  assert (Hlen2 : Z.of_nat (length (take (Z.to_nat s2) m2)) = s2).
  { rewrite length_take. destruct Hs2. lia. }
  set (M1 := Message p1 (take (Z.to_nat s1) m1)).
  set (M2 := Message p2 (take (Z.to_nat s2) m2)).
  unfold mbind, Prog_bind.
  (* first send *)
  rewrite exec_bind.
  rewrite (exec_os_send_ok w mq d q m1 s1 p1 Hd Hw Hq Hp1 Hf1)
    by (rewrite Hempty; cbn; lia).
  rewrite Hempty. cbn [returned issued enqueue]. fold M1.
  set (w1 := set_queues (<[d_queue d := set_msgs [M1] q]> (w_queues w)) w).
  assert (Hq1 : queue_of w1 d = Some (set_msgs [M1] q))
    by (apply (queue_of_set_queues w d q); [exact Hq | reflexivity]).
  (* second send *)
  rewrite exec_bind.
  rewrite (exec_os_send_ok w1 mq d (set_msgs [M1] q) m2 s2 p2 Hd Hw Hq1 Hp2 Hf2)
    by (cbn; lia).
  cbn [returned issued q_msgs set_msgs enqueue m_prio M1]. fold M2.
  set (l2 := if p1 <? p2 then [M2; M1] else [M1; M2]).
  set (w2 := set_queues
               (<[d_queue d := set_msgs l2 (set_msgs [M1] q)]> (w_queues w1)) w1).
  assert (Hq2 : queue_of w2 d = Some (set_msgs l2 (set_msgs [M1] q))).
  { apply (queue_of_set_queues w1 d (set_msgs [M1] q)); [exact Hq1 | reflexivity]. }
  set (first := if p1 <? p2 then M2 else M1).
  set (second := if p1 <? p2 then M1 else M2).
  assert (Hl2' : l2 = [first; second])
    by (unfold l2, first, second; destruct (p1 <? p2); reflexivity).
  assert (Hsz : forall m, m = M1 \/ m = M2 -> is_size_t (Z.of_nat (length (m_data m)))).
  { intros m [-> | ->]; cbn; [rewrite Hlen1 | rewrite Hlen2]; assumption. }
  (* first receive *)
  rewrite exec_bind.
  pose proof (exec_os_recv_ok w2 mq d _ first [second] buf cap pa Hd Hr Hq2
                Hl2' Hcap) as E3.
  unfold RES_T in E3. rewrite E3
    by (apply Hsz; unfold first; destruct (p1 <? p2); auto).
  cbn [returned issued].
  set (w3 := set_queues
               (<[d_queue d := set_msgs [second] (set_msgs l2 (set_msgs [M1] q))]>
                  (w_queues w2)) w2).
  assert (Hq3 : queue_of w3 d = Some (set_msgs [second] (set_msgs l2 (set_msgs [M1] q)))).
  { apply (queue_of_set_queues w2 d _ _ _ Hq2). reflexivity. }
  (* second receive *)
  rewrite exec_bind.
  pose proof (exec_os_recv_ok w3 mq d _ second [] buf cap pb Hd Hr Hq3
                eq_refl Hcap) as E4.
  unfold RES_T in E4. rewrite E4
    by (apply Hsz; unfold second; destruct (p1 <? p2); auto).
  cbn [returned issued exec].
  eexists. split.
  - f_equal. f_equal. unfold first, second, got1, got2, M1, M2.
    destruct (p1 <? p2); cbn [m_data m_prio]; rewrite Hlen1, Hlen2; reflexivity.
  - erewrite queue_of_set_queues; [ | exact Hq3 | reflexivity].
    unfold set_msgs. cbn. rewrite <- Hempty. destruct q; reflexivity.
Qed.

Lemma two_messages_by_priority_witness :
  exists w' : world,
    returned
      (exec os_handle
         (r1 ← posixmq_send 0 (bytes_of "low") 3 1;
          r2 ← posixmq_send 0 (bytes_of "urgent") 6 9;
          a ← posixmq_recv 0 (bytes_of "........") 8 0;
          b ← posixmq_recv 0 (bytes_of "........") 8 0;
          Ret (r1, r2, a, b)) one_queue_open) =
      Some ((0, 0,
             (0, (bytes_of "urgent..", 6, 9)),
             (0, (bytes_of "low.....", 3, 1))), w') /\
    queue_of w' (MqDesc 0 O_RDWR) = Some (MQueue 10 8 []).
Proof.
  apply (two_messages_by_priority one_queue_open 0 (MqDesc 0 O_RDWR) (MQueue 10 8 [])
           (bytes_of "low") (bytes_of "urgent") (bytes_of "........")
           3 6 1 9 8 0 0).
  - reflexivity.
  - reflexivity.
  - reflexivity.
  - reflexivity.
  - reflexivity.
  - now vm_compute.
  - unfold is_size_t, SIZE_MAX, SIZE_WIDTH. lia.
  - now vm_compute.
  - now vm_compute.
  - unfold is_size_t, SIZE_MAX, SIZE_WIDTH. lia.
  - now vm_compute.
  - now vm_compute.
  - now vm_compute.
  - now vm_compute.
  - now vm_compute.
Defined.

(** ** Queues stay within their limits *)






Lemma one_message_ok : world_ok one_message.
Proof.
  unfold world_ok, one_message. cbn. constructor; [|constructor].
  unfold queue_ok. cbn. split; [lia|]. split; [|lia].
  constructor; [cbn; lia | constructor].
Qed.


(** The two ways [mq_receive] answers in the modelled system. *)
Lemma os_receive_cases (mq : Z) (buf : list byte) (cap prio0 : Z) (w w' : world)
    (r : Z) (buf' : list byte) (prio' : Z) :
  os_mq_receive mq buf cap prio0 w = Some (r, buf', prio', w') ->
  (r = -1 /\ buf' = buf /\ prio' = prio0 /\ w_queues w' = w_queues w) \/
  (exists (d : mqdesc) (q : mqueue) (m : message) (rest : list message),
      queue_of w d = Some q /\ q_msgs q = m :: rest /\ q_msgsize q <= cap /\
      r = Z.of_nat (length (m_data m)) /\ buf' = write_buf (m_data m) buf /\
      prio' = m_prio m).
Proof.
  unfold os_mq_receive, fails. intros H.
  repeat case_match; simplify_eq; try (left; auto; fail).
  right. do 4 eexists. repeat split; try eassumption. lia.
Qed.

(** X19. After [posixmq_recv] on queues within their limits, either
    [*size_inout] is 2^64 - 1, and then the buffer and the priority are
    untouched and nothing was taken off a queue, or [*size_inout] is at most
    the capacity passed in, and then a buffer that really has this capacity
    keeps its length. *)
Theorem posixmq_recv_size_bounded :
  forall (w w' : world) (mq : Z) (buf buf' : list byte)
         (cap prio0 res size' prio' : Z),
    world_ok w ->
    is_size_t cap ->
    returned (exec os_handle (posixmq_recv mq buf cap prio0) w) =
      Some ((res, (buf', size', prio')), w') ->
    (size' = SIZE_MAX /\ buf' = buf /\ prio' = prio0 /\ w_queues w' = w_queues w) \/
    (0 <= size' <= cap /\
     (cap <= Z.of_nat (length buf) -> length buf' = length buf)).
Proof.
  intros w w' mq buf buf' cap prio0 res size' prio' Hok Hcap H.
  rewrite exec_posixmq_recv in H. cbn [os_handle] in H.
  destruct (os_mq_receive mq buf cap prio0 w) as [[[[r b] p] w1]|] eqn:E;
    [|discriminate H].
  cbn in H. simplify_eq.
  apply os_receive_cases in E
    as [(-> & -> & -> & Hq) | (d & q & m & rest & Hq & Hm & Hfit & -> & -> & ->)].
  - left. auto.
  - right.
    pose proof (Forall_lookup_1 _ _ _ _ Hok Hq) as (Hsz & Hmsgs & _).
    rewrite Hm in Hmsgs. inversion Hmsgs as [|? ? Hlen _]; subst.
    assert (Hr : is_size_t (Z.of_nat (length (m_data m)))).
    { unfold is_size_t in *. lia. }
    rewrite (to_size_t_id _ Hr). split; [lia|].
    intros Hbuf. unfold write_buf. rewrite length_app, length_drop. lia.
Qed.

Lemma posixmq_recv_size_bounded_witness :
  returned (exec os_handle (posixmq_recv 0 (bytes_of "........") 8 0) one_message) =
    Some ((0, (bytes_of "abc.....", 3, 5)), one_queue_open) /\
  ((3 = SIZE_MAX /\ bytes_of "abc....." = bytes_of "........" /\ 5 = 0 /\
    w_queues one_queue_open = w_queues one_message) \/
   (0 <= 3 <= 8 /\
    (8 <= Z.of_nat (length (bytes_of "........")) ->
     length (bytes_of "abc.....") = length (bytes_of "........")))).
Proof.
  split; [reflexivity|].
  apply (posixmq_recv_size_bounded one_message one_queue_open 0
           (bytes_of "........") (bytes_of "abc.....") 8 0 0 3 5).
  - exact one_message_ok.
  - unfold is_size_t, SIZE_MAX, SIZE_WIDTH. lia.
  - reflexivity.
Defined.

(** ** Result against system call *)

(** X20. For create-or-open, open-existing, close, unlink and send, a run
    that returns gives 0 exactly when the wrapper's system call answered
    with a non-negative value, and -1 exactly when it answered with a
    negative one. *)
Theorem library_result_iff_syscall :
  forall (S : Type) (h : handler S) (c : lib_call) (s s1 s' : S)
         (r0 : resp (syscall_of c)) (r : RES_T),
    is_recv c = false ->
    h (syscall_of c) s = Some (r0, s1) ->
    returned (exec h (result_of c) s) = Some (r, s') ->
    (r = 0 <-> 0 <= status (syscall_of c) r0) /\
    (r = -1 <-> status (syscall_of c) r0 < 0).
Proof.
  intros S h c s s1 s' r0 r Hc Hsys H.
  destruct c; try discriminate Hc; cbn in r0, Hsys |- *;
    cbn -[errno_line Z.lor] in H; rewrite Hsys in H;
    cbn -[errno_line] in H;
    (destruct (r0 <? 0) eqn:E;
     [apply Z.ltb_lt in E | apply Z.ltb_ge in E]);
    run_cases h; simplify_eq; lia.
Qed.

Lemma library_result_iff_syscall_witness :
  os_handle (mq_close 7) one_queue_open = Some (-1, set_errno EBADF one_queue_open) /\
  returned (exec os_handle (result_of (Close 7)) one_queue_open) =
    Some (-1, put_stdout (errno_line EBADF) (set_errno EBADF one_queue_open)) /\
  (-1 = 0 <-> 0 <= -1) /\ (-1 = -1 <-> -1 < 0).
Proof.
  split; [reflexivity|]. split; [reflexivity|].
  apply (library_result_iff_syscall world os_handle (Close 7) one_queue_open
           (set_errno EBADF one_queue_open)
           (put_stdout (errno_line EBADF) (set_errno EBADF one_queue_open))
           (-1) (-1)).
  - reflexivity.
  - reflexivity.
  - reflexivity.
Defined.
